(** * Reading dashboard (app.py): aggregation, Marimekko layout and
      the click-to-filter selection toggle

    A shallow embedding of [src/app.py].  The pandas frame [filtered] is a
    list of rows, the two Dash callbacks [update_table] and
    [update_marimekko] are functions of their inputs and of that frame, and
    the browser session is a small transition system that fires the
    callbacks the way their [Input]/[State]/[Output] declarations say.

    Numbers are modelled as the code has them: page counts are [int64]
    (sums wrap around), ratings and chart proportions are binary64 floats
    (Rocq's primitive floats, which evaluate exactly like Python's).

    Left out: fonts, margins and page layout; the figure built at import
    time (lines 29-208), which repeats [update_marimekko] on the whole frame
    and is replaced by the callbacks' first run at page load. *)

From Stdlib Require Import ZArith List String Ascii Bool Lia.
From Stdlib Require Import Numbers.DecimalString.
From Stdlib Require Import Floats.
From Stdlib Require Import Sorting.Sorted Sorting.Permutation OrderedTypeEx.
Import ListNotations.

Local Open Scope string_scope.
Local Open Scope Z_scope.

(** ** Python scalars *)

Module Py.

(** [str(n)] for an [int]. *)
Definition str_of_int (n : Z) : string :=
  NilZero.string_of_int (Z.to_int n).

(** What a Python expression evaluates to: a value, or a raised exception. *)
Inductive exn := ValueError | TypeError | OverflowError.

Inductive result (A : Type) :=
| Ok (a : A)
| Raise (e : exn).
Arguments Ok {A} a.
Arguments Raise {A} e.

Definition bind {A B} (r : result A) (k : A -> result B) : result B :=
  match r with
  | Ok a => k a
  | Raise e => Raise e
  end.

(** [try: body  except Exception: handler]. *)
Definition try_except {A} (body : result A) (handler : A) : A :=
  match body with
  | Ok a => a
  | Raise _ => handler
  end.

(** A cell handed to [rating_label_from_value]. *)
Inductive value :=
| PNone                          (* None, pd.NA, NaT *)
| PFloat (f : float)             (* float / numpy.float64, NaN included *)
| PInt (n : Z)                   (* int / numpy.int64 *)
| PObj (as_float : option float) (* str or any other object; [as_float] is
                                    what float(val) gives, None when it
                                    raises *).

(** int64 to float64, and Python's [float(n)]: round to nearest, ties to
    even; [float] of an int too large for a double raises. *)
Definition float_of_Z (n : Z) : float :=
  SF2Prim (binary_normalize prec emax n 0 false).

Definition float_of_int (n : Z) : result float :=
  let f := float_of_Z n in
  if is_infinity f then Raise OverflowError else Ok f.

(** [pd.isna(val)] on a scalar. *)
Definition isna (v : value) : bool :=
  match v with
  | PNone => true
  | PFloat f => is_nan f
  | PInt _ => false
  | PObj _ => false
  end.

(** [x.is_integer()]: finite with no fractional part. *)
Definition is_integer (x : float) : bool :=
  match Prim2SF x with
  | S754_zero _ => true
  | S754_finite _ m e =>
      if 0 <=? e then true else Z.pos m mod 2 ^ (- e) =? 0
  | S754_infinity _ => false
  | S754_nan => false
  end.

(** [int(x)]: truncation toward zero; raises on infinities and NaN. *)
Definition int (x : float) : result Z :=
  match Prim2SF x with
  | S754_zero _ => Ok 0
  | S754_finite s m e =>
      let a := if 0 <=? e then Z.pos m * 2 ^ e else Z.pos m / 2 ^ (- e) in
      Ok (if s then - a else a)
  | S754_infinity _ => Raise OverflowError
  | S754_nan => Raise ValueError
  end.

(** The number of tenths nearest to [m * 2^e], ties to even. *)
Definition round_tenths (m : positive) (e : Z) : Z :=
  if 0 <=? e then Z.pos m * 2 ^ e * 10
  else
    let d := 2 ^ (- e) in
    let q := (Z.pos m * 10) / d in
    let r := (Z.pos m * 10) mod d in
    match 2 * r ?= d with
    | Lt => q
    | Gt => q + 1
    | Eq => if Z.even q then q else q + 1
    end.

(** [f"{x:.1f}"]: correctly rounded to one decimal, sign kept. *)
Definition format_1f (x : float) : string :=
  match Prim2SF x with
  | S754_nan => "nan"
  | S754_infinity s => if s then "-inf" else "inf"
  | S754_zero s => if s then "-0.0" else "0.0"
  | S754_finite s m e =>
      let t := round_tenths m e in
      (if s then "-" else EmptyString) ++ str_of_int (t / 10) ++ "." ++ str_of_int (t mod 10)
  end.

(** [float(val)]. *)
Definition float (v : value) : result PrimFloat.float :=
  match v with
  | PNone => Raise TypeError
  | PFloat f => Ok f
  | PInt n => float_of_int n
  | PObj (Some f) => Ok f
  | PObj None => Raise ValueError
  end.

End Py.

(** ** Rating labels (app.py, lines 61-70) *)

(** The body of the [try] block. *)
Definition rating_label_try (val : Py.value) : Py.result string :=
  Py.bind (Py.float val) (fun val =>
  if Py.is_integer val then
    Py.bind (Py.int val) (fun n => Py.Ok (Py.str_of_int n ++ "⭐"))
  else
    Py.Ok (Py.format_1f val ++ "⭐")).

Definition rating_label_from_value (val : Py.value) : string :=
  if Py.isna val then "Unrated"
  else Py.try_except (rating_label_try val) "Unrated".

(** ** The data frame (app.py, lines 12-27 and 73) *)

(** A parsed [Date Added]; [NaT] is [None] in the raw frame. *)
Record date := { year : Z; month : Z; day : Z }.

Definition date_compare (a b : date) : comparison :=
  match year a ?= year b with
  | Eq => match month a ?= month b with
          | Eq => day a ?= day b
          | c => c
          end
  | c => c
  end.

Definition date_leb (a b : date) : bool :=
  match date_compare a b with Gt => false | _ => true end.

(** [str.zfill(width)] on a string of digits. *)
Definition zfill (width : nat) (s : string) : string :=
  string_of_list_ascii (repeat "0"%char (width - String.length s)) ++ s.

(** [dt.to_period("M").astype(str)]: "YYYY-MM". *)
Definition period_M (d : date) : string :=
  zfill 4 (Py.str_of_int (year d)) ++ "-" ++ zfill 2 (Py.str_of_int (month d)).

(** A row of [df], the columns the program reads. *)
Record book := {
  raw_Title : string;
  raw_Author : string;
  raw_Date_Added : option date;
  raw_Exclusive_Shelf : string;
  raw_My_Rating : float;          (* NaN when the cell is empty *)
  raw_Number_of_Pages : Z
}.

(** A row of [filtered] once all derived columns are in place. *)
Record row := {
  Title : string;
  Author : string;
  Date_Added : date;
  My_Rating : float;
  Number_of_Pages : Z;
  Month_Read : string;
  Rating_Label : string
}.

Definition mask_2025 (b : book) : bool :=
  match raw_Date_Added b with
  | Some d => year d =? 2025
  | None => false
  end.

Definition mask_shelf (b : book) : bool :=
  existsb (String.eqb (raw_Exclusive_Shelf b)) ["read"; "currently-reading"].

(** Line 24: [filtered.loc[filtered["My Rating"] == 0, "My Rating"] = np.nan]. *)
Definition zero_to_nan (rating : float) : float :=
  if (rating =? 0)%float then nan else rating.

(** One row of [df] carried through lines 19-27 and 73; [None] when the masks
    drop it. *)
Definition filtered_row (b : book) : option row :=
  match raw_Date_Added b with
  | Some d =>
      if mask_2025 b && mask_shelf b then
        let rating := zero_to_nan (raw_My_Rating b) in
        Some {| Title := raw_Title b;
                Author := raw_Author b;
                Date_Added := d;
                My_Rating := rating;
                Number_of_Pages := raw_Number_of_Pages b;
                Month_Read := period_M d;
                Rating_Label := rating_label_from_value (Py.PFloat rating) |}
      else None
  | None => None
  end.

Definition filtered (df : list book) : list row :=
  flat_map (fun b => match filtered_row b with Some r => [r] | None => [] end) df.

(** [int(filtered["Number of Pages"].min())] and [.max()]; [None] when the
    frame is empty and the conversion raises. *)
Definition min_pages (frame : list row) : option Z :=
  match map Number_of_Pages frame with
  | [] => None
  | p :: ps => Some (fold_left Z.min ps p)
  end.

Definition max_pages (frame : list row) : option Z :=
  match map Number_of_Pages frame with
  | [] => None
  | p :: ps => Some (fold_left Z.max ps p)
  end.

(** ** Record filter (lines 386-388 and 452-454) *)

(** [Series.between(low, high, inclusive="both")], one cell. *)
Definition between (low high : Z) (pages : Z) : bool :=
  (low <=? pages) && (pages <=? high).

Definition page_filter (frame : list row) (low high : Z) : list row :=
  filter (fun r => between low high (Number_of_Pages r)) frame.

(** ** Table handler (lines 375-441) *)

(** One dict of [to_dict("records")] over the five table columns. *)
Record table_row := {
  t_Month_Read : string;
  t_Title : string;
  t_Author : string;
  t_My_Rating : float;
  t_Number_of_Pages : Z
}.

Definition to_records (dff : list row) : list table_row :=
  map (fun r => {| t_Month_Read := Month_Read r;
                   t_Title := Title r;
                   t_Author := Author r;
                   t_My_Rating := My_Rating r;
                   t_Number_of_Pages := Number_of_Pages r |}) dff.

(** A row of a bar trace's [customdata], in the column order of [np.stack]:
    index 0 is the month, index 4 the rating label. *)
Record hover_row := {
  cd_Month_Read : string;     (* customdata[0] *)
  cd_pages : Z;               (* customdata[1] *)
  cd_month_pages : Z;         (* customdata[2] *)
  cd_Books : string;          (* customdata[3] *)
  cd_Rating_Label : string    (* customdata[4] *)
}.

(** [clickData]: a dict whose "points" key may be missing. *)
Record point := { customdata : hover_row }.
Record click_data := { points : option (list point) }.

(** The dict kept in [selection-store]. *)
Record selection := { sel_month : string; sel_rating : string }.

Definition selection_eqb (a b : selection) : bool :=
  String.eqb (sel_month a) (sel_month b) && String.eqb (sel_rating a) (sel_rating b).

(** [stored_selection == current_selection]. *)
Definition stored_eqb (stored : option selection) (current : selection) : bool :=
  match stored with
  | Some s => selection_eqb s current
  | None => false
  end.

Definition update_table (frame : list row) (clickData : option click_data)
    (page_range : Z * Z) (stored_selection : option selection)
    : list table_row * option selection :=
  let (low, high) := page_range in
  let df_page := page_filter frame low high in
  match clickData with
  | None => (to_records df_page, None)
  | Some cd =>
      match points cd with
      | None => (to_records df_page, None)
      | Some [] => (to_records df_page, None)
      | Some (pt :: _) =>
          let month := cd_Month_Read (customdata pt) in
          let rating_label := cd_Rating_Label (customdata pt) in
          let current_selection :=
            {| sel_month := month; sel_rating := rating_label |} in
          if stored_eqb stored_selection current_selection then
            (to_records df_page, None)
          else
            let dff :=
              filter (fun r => String.eqb (Month_Read r) month
                               && String.eqb (Rating_Label r) rating_label)
                     df_page in
            (to_records dff, Some current_selection)
      end
  end.

(** ** Group-by, sums and sorting *)

(** An [int64] result: two's-complement wrap-around. *)
Definition int64 (z : Z) : Z := (z + 2 ^ 63) mod 2 ^ 64 - 2 ^ 63.

(** [Series.sum()] over an [int64] column. *)
Definition sum_int64 (col : list Z) : Z :=
  fold_left (fun acc p => int64 (acc + p)) col 0.

(** The sum of a column without wrap-around. *)
Fixpoint zsum (col : list Z) : Z :=
  match col with
  | [] => 0
  | p :: rest => p + zsum rest
  end.

Section GroupBy.
Context {K : Type} (cmp : K -> K -> comparison).

Definition key_eqb (a b : K) : bool :=
  match cmp a b with Eq => true | _ => false end.

(** The distinct keys in ascending order ([groupby] sorts its keys). *)
Fixpoint insert_key (k : K) (keys : list K) : list K :=
  match keys with
  | [] => [k]
  | k' :: rest =>
      match cmp k k' with
      | Lt => k :: keys
      | Eq => keys
      | Gt => k' :: insert_key k rest
      end
  end.

Definition group_keys (col : list K) : list K :=
  fold_left (fun keys k => insert_key k keys) col [].

(** [frame.groupby(key)]: each key with its rows, in frame order. *)
Definition groupby {R : Type} (key : R -> K) (frame : list R) : list (K * list R) :=
  map (fun k => (k, filter (fun r => key_eqb (key r) k) frame))
      (group_keys (map key frame)).
End GroupBy.

Section SortValues.
Context {R : Type} (leb : R -> R -> bool).

Fixpoint insert_sorted (r : R) (sorted : list R) : list R :=
  match sorted with
  | [] => [r]
  | r' :: rest => if leb r r' then r :: sorted else r' :: insert_sorted r rest
  end.

(** [sort_values]: ascending; rows with equal keys keep their order. *)
Definition sort_values (frame : list R) : list R :=
  fold_right insert_sorted [] frame.
End SortValues.

Definition pair_compare (a b : string * string) : comparison :=
  match String.compare (fst a) (fst b) with
  | Eq => String.compare (snd a) (snd b)
  | c => c
  end.

(** [Series.min()] over a date column; [None] on an empty column. *)
Definition min_date (col : list date) : option date :=
  match col with
  | [] => None
  | d :: ds => Some (fold_left (fun m d' => if date_leb m d' then m else d') ds d)
  end.

(** ** Layout engine: month columns (lines 466-496) *)

Record month_total := {
  mt_Month_Read : string;
  month_pages : Z;
  first_date : date;
  width_prop : float;
  x_start : float;
  x_end : float;
  x_center : float
}.

(** [Series.cumsum()] on floats with [skipna=True]: a NaN cell adds nothing
    to the running sum and shows NaN at its own position. *)
Fixpoint cumsum_from (acc : float) (col : list float) : list float :=
  match col with
  | [] => []
  | w :: rest =>
      let acc' := (acc + (if is_nan w then 0 else w))%float in
      (if is_nan w then nan else acc') :: cumsum_from acc' rest
  end.

Definition cumsum (col : list float) : list float :=
  match col with
  | [] => []
  | w :: rest =>
      let acc := if is_nan w then 0%float else w in
      (if is_nan w then nan else acc) :: cumsum_from acc rest
  end.

(** [Series.shift(fill_value=0)]. *)
Definition shift (col : list float) : list float :=
  match col with
  | [] => []
  | _ => 0%float :: removelast col
  end.

(** Month, monthly pages and first date, sorted by first date
    (lines 467-487).  [merge] is the inner join on "Month Read"; the months
    of one frame have distinct first dates, so the order after
    [sort_values] does not depend on the sorting algorithm. *)
Definition month_table (df_range : list row) : list (string * Z * date) :=
  let groups := groupby String.compare Month_Read df_range in
  let month_totals :=
    map (fun g => (fst g, sum_int64 (map Number_of_Pages (snd g)))) groups in
  let month_first_date :=
    flat_map (fun g => match min_date (map Date_Added (snd g)) with
                       | Some d => [(fst g, d)]
                       | None => []
                       end) groups in
  let merged :=
    flat_map (fun t =>
      map (fun f => (fst t, snd t, snd f))
          (filter (fun f => String.eqb (fst f) (fst t)) month_first_date))
      month_totals in
  sort_values (fun a b => date_leb (snd a) (snd b)) merged.

Definition grand_total_pages (df_range : list row) : Z :=
  sum_int64 (map (fun m => snd (fst m)) (month_table df_range)).

Definition month_totals (df_range : list row) : list month_total :=
  let table := month_table df_range in
  let grand_total_pages := grand_total_pages df_range in
  let width_prop :=
    map (fun m => (Py.float_of_Z (snd (fst m)) / Py.float_of_Z grand_total_pages)%float)
        table in
  let x_start := shift (cumsum width_prop) in
  let x_end := map (fun sw => (fst sw + snd sw)%float) (combine x_start width_prop) in
  let x_center := map (fun se => ((fst se + snd se) / 2)%float) (combine x_start x_end) in
  map (fun c =>
         let '(m, (w, (s, (e, c)))) := c in
         {| mt_Month_Read := fst (fst m);
            month_pages := snd (fst m);
            first_date := snd m;
            width_prop := w;
            x_start := s;
            x_end := e;
            x_center := c |})
      (combine table (combine width_prop (combine x_start (combine x_end x_center)))).

(** ** Aggregator and segment heights (lines 498-523) *)

Record agg_row := {
  a_Month_Read : string;
  a_Rating_Label : string;
  pages : Z;
  Books : string;
  a_month_pages : Z;
  a_x_center : float;
  a_width_prop : float;
  height : float
}.

(** The key of a row in the segment group-by. *)
Definition segment_key (r : row) : string * string :=
  (Month_Read r, Rating_Label r).

Definition summarize_books (group : list row) : string :=
  String.concat "<br>" (map (fun r => Title r ++ " (" ++ Author r ++ ")") group).

(** Both merges are left joins whose every left key has exactly one partner
    on the right (the same groups on both sides; one [month_totals] row per
    month), so they are written as the join on the key. *)
Definition agg (df_range : list row) : list agg_row :=
  let groups :=
    groupby pair_compare segment_key df_range in
  let agg_books := map (fun g => (fst g, summarize_books (snd g))) groups in
  let agg_pages :=
    map (fun g => (fst g, sum_int64 (map Number_of_Pages (snd g)))) groups in
  let with_books :=
    flat_map (fun p =>
      map (fun b => (fst p, snd p, snd b))
          (filter (fun b => key_eqb pair_compare (fst b) (fst p)) agg_books))
      agg_pages in
  flat_map (fun s =>
    let '(key, pages, books) := s in
    map (fun mt =>
           {| a_Month_Read := fst key;
              a_Rating_Label := snd key;
              pages := pages;
              Books := books;
              a_month_pages := month_pages mt;
              a_x_center := x_center mt;
              a_width_prop := width_prop mt;
              height := (Py.float_of_Z pages / Py.float_of_Z (month_pages mt))%float |})
        (filter (fun mt => String.eqb (mt_Month_Read mt) (fst key))
                (month_totals df_range)))
    with_books.

(** ** Scene builder and chart handler (lines 443-612) *)

(** [px.colors.sequential.RdPu]. *)
Definition rdpu : list string :=
  [ "rgb(255,247,243)"; "rgb(253,224,221)"; "rgb(252,197,192)";
    "rgb(250,159,181)"; "rgb(247,104,161)"; "rgb(221,52,151)";
    "rgb(174,1,126)"; "rgb(122,1,119)"; "rgb(73,0,106)" ].

Definition rating_colors : list (string * string) :=
  [ ("Unrated", nth 1 rdpu EmptyString);
    ("1⭐", nth 2 rdpu EmptyString);
    ("2⭐", nth 3 rdpu EmptyString);
    ("3⭐", nth 5 rdpu EmptyString);
    ("4⭐", nth 7 rdpu EmptyString);
    ("5⭐", last rdpu EmptyString) ].

Definition legend_labels : list string :=
  [ "Unrated"; "1⭐"; "2⭐"; "3⭐"; "4⭐"; "5⭐" ].

(** [rating_colors[label]]; every legend label is a key. *)
Definition color_of (label : string) : string :=
  match find (fun kv => String.eqb (fst kv) label) rating_colors with
  | Some kv => snd kv
  | None => EmptyString
  end.

(** A bar trace: [None] in [bar_x]/[bar_y] is the placeholder's [None]. *)
Record bar := {
  bar_x : list (option float);
  bar_y : list (option float);
  bar_width : list float;
  bar_name : string;
  bar_marker_color : string;
  bar_hoverinfo_skip : bool;
  bar_customdata : list hover_row
}.

Record axis := {
  visible : bool;
  axis_title : string;
  tickvals : list float;
  ticktext : list string
}.

(** The parts of a [go.Figure] the program sets (fonts and margins left
    out). *)
Record figure := {
  data : list bar;
  title : string;
  xaxis : axis;
  yaxis : axis
}.

(** The trace added for one legend label (the body of the [for] loop). *)
Definition trace_for (agg : list agg_row) (label : string) : bar :=
  let sub := filter (fun a => String.eqb (a_Rating_Label a) label) agg in
  match sub with
  | [] =>
      {| bar_x := [None];
         bar_y := [None];
         bar_width := [0%float];
         bar_name := label;
         bar_marker_color := color_of label;
         bar_hoverinfo_skip := true;
         bar_customdata := [] |}
  | _ =>
      {| bar_x := map (fun a => Some (a_x_center a)) sub;
         bar_y := map (fun a => Some (height a)) sub;
         bar_width := map a_width_prop sub;
         bar_name := label;
         bar_marker_color := color_of label;
         bar_hoverinfo_skip := false;
         bar_customdata :=
           map (fun a => {| cd_Month_Read := a_Month_Read a;
                            cd_pages := pages a;
                            cd_month_pages := a_month_pages a;
                            cd_Books := Books a;
                            cd_Rating_Label := a_Rating_Label a |}) sub |}
  end.

(** Lines 466-612: the chart of a non-empty range. *)
Definition marimekko_figure (df_range : list row) : figure :=
  let month_totals := month_totals df_range in
  let agg := agg df_range in
  {| data := map (trace_for agg) legend_labels;
     title := "How My 2025 Reading Time Is Distributed Across Months and Ratings";
     xaxis := {| visible := true;
                 axis_title := "Month in 2025 (wider columns = more pages read that month)";
                 tickvals := map x_center month_totals;
                 ticktext := map mt_Month_Read month_totals |};
     yaxis := {| visible := true;
                 axis_title := "Share of pages in that month by rating (0–100%)";
                 tickvals := [];
                 ticktext := [] |} |}.

(** Lines 458-464: the "nothing in range" figure. *)
Definition empty_fig (low high : Z) : figure :=
  {| data := [];
     title := "No books between " ++ Py.str_of_int low ++ " and "
              ++ Py.str_of_int high ++ " pages";
     xaxis := {| visible := false; axis_title := EmptyString; tickvals := []; ticktext := [] |};
     yaxis := {| visible := false; axis_title := EmptyString; tickvals := []; ticktext := [] |} |}.

(** The handler's control flow, with the work done on a non-empty range
    passed in as [engine]. *)
Definition update_marimekko_with (engine : list row -> figure)
    (frame : list row) (page_range : Z * Z) : figure :=
  let (low, high) := page_range in
  let df_range := page_filter frame low high in
  match df_range with
  | [] => empty_fig low high
  | _ => engine df_range
  end.

Definition update_marimekko : list row -> Z * Z -> figure :=
  update_marimekko_with marimekko_figure.

(** ** The browser session: which callback fires on which event *)

Record session := {
  s_clickData : option click_data;      (* reading-marimekko.clickData *)
  s_page_range : Z * Z;                 (* pages-slider.value *)
  s_selection_store : option selection; (* selection-store.data *)
  s_table : list table_row;             (* books-table.data *)
  s_figure : figure                     (* reading-marimekko.figure *)
}.

Inductive event :=
| SegmentClicked (cd : click_data)
| RangeChanged (low high : Z).

(** A click is an [Input] of [update_table] only; the slider is an [Input]
    of both callbacks.  The store is read as [State] and written back. *)
Definition fire (frame : list row) (st : session) (ev : event) : session :=
  match ev with
  | SegmentClicked cd =>
      let out := update_table frame (Some cd) (s_page_range st) (s_selection_store st) in
      {| s_clickData := Some cd;
         s_page_range := s_page_range st;
         s_selection_store := snd out;
         s_table := fst out;
         s_figure := s_figure st |}
  | RangeChanged low high =>
      let out := update_table frame (s_clickData st) (low, high) (s_selection_store st) in
      {| s_clickData := s_clickData st;
         s_page_range := (low, high);
         s_selection_store := snd out;
         s_table := fst out;
         s_figure := update_marimekko frame (low, high) |}
  end.

(** Page load: the slider starts at [[min_pages, max_pages]], nothing is
    clicked or stored, and Dash runs both callbacks once. *)
Definition startup (frame : list row) : option session :=
  match min_pages frame, max_pages frame with
  | Some lo, Some hi =>
      let out := update_table frame None (lo, hi) None in
      Some {| s_clickData := None;
              s_page_range := (lo, hi);
              s_selection_store := snd out;
              s_table := fst out;
              s_figure := update_marimekko frame (lo, hi) |}
  | _, _ => None
  end.

Inductive reachable (frame : list row) : session -> Prop :=
| reach_startup st : startup frame = Some st -> reachable frame st
| reach_fire st ev : reachable frame st -> reachable frame (fire frame st ev).

(** ** Sample data *)

Definition mk_book (t a : string) (m d : Z) (rating : float) (p : Z) : book :=
  {| raw_Title := t; raw_Author := a;
     raw_Date_Added := Some {| year := 2025; month := m; day := d |};
     raw_Exclusive_Shelf := "read";
     raw_My_Rating := rating;
     raw_Number_of_Pages := p |}.

(** One month, two ratings. *)
Definition scenario_A : list book :=
  [ mk_book "Dune" "Herbert" 1 5 5 300; mk_book "Emma" "Austen" 1 20 3 100 ].

(** Two months; the January book is rated 0. *)
Definition scenario_B : list book :=
  [ mk_book "Dune" "Herbert" 2 5 5 100; mk_book "Emma" "Austen" 1 20 0 400 ].

(** A January book whose page count is 0. *)
Definition zero_pages : list book :=
  [ mk_book "Dune" "Herbert" 2 5 5 300; mk_book "Emma" "Austen" 1 20 4 0 ].

(** The click Plotly reports for the 5-star January segment of [scenario_A]. *)
Definition click_dune : click_data :=
  {| points := Some [ {| customdata :=
       {| cd_Month_Read := "2025-01"; cd_pages := 300; cd_month_pages := 400;
          cd_Books := "Dune (Herbert)"; cd_Rating_Label := "5⭐" |} |} ] |}.

(** ** Notions used to state the properties *)

(** Python's [sum(xs)] over floats. *)
Definition sum_float (xs : list float) : float :=
  fold_left (fun acc x => (acc + x)%float) xs 0%float.

(** [abs(x - 1.0) <= 1e-9]. *)
Definition close_to_one (x : float) : bool :=
  (abs (x - 1) <=? 0x1.12e0be826d695p-30)%float.

(** The rows of one month. *)
Definition month_rows (df_range : list row) (m : string) : list row :=
  filter (fun r => String.eqb (Month_Read r) m) df_range.

(** The segments of one month. *)
Definition month_segments (df_range : list row) (m : string) : list agg_row :=
  filter (fun a => String.eqb (a_Month_Read a) m) (agg df_range).

(** The heights of one month's segments. *)
Definition month_heights (df_range : list row) (m : string) : list float :=
  map height (month_segments df_range m).

(** The restriction of a frame to one segment. *)
Definition segment_rows (dff : list row) (m r : string) : list row :=
  filter (fun x => String.eqb (Month_Read x) m && String.eqb (Rating_Label x) r) dff.

(** The selection a click on [pt] stands for. *)
Definition selection_of (pt : point) : selection :=
  {| sel_month := cd_Month_Read (customdata pt);
     sel_rating := cd_Rating_Label (customdata pt) |}.

(** In a session the store, when set, holds the pair of the retained click. *)
Definition store_follows_click (st : session) : Prop :=
  forall s, s_selection_store st = Some s ->
  exists pt pts, s_clickData st = Some {| points := Some (pt :: pts) |}
                 /\ s = selection_of pt.

(** The ranges the slider can produce: ordered, inside the page counts of
    the frame. *)
Definition in_domain (frame : list row) (low high : Z) : Prop :=
  low <= high
  /\ exists lo hi, min_pages frame = Some lo /\ max_pages frame = Some hi
                   /\ lo <= low /\ high <= hi.


(** A rating cell that reads as "no rating": 0 or empty. *)
Definition unrated (rating : float) : bool :=
  (rating =? 0)%float || is_nan rating.

(** Two raw rows that differ at most in how "no rating" is written. *)
Definition same_but_unrated (a b : book) : Prop :=
  raw_Title a = raw_Title b
  /\ raw_Author a = raw_Author b
  /\ raw_Date_Added a = raw_Date_Added b
  /\ raw_Exclusive_Shelf a = raw_Exclusive_Shelf b
  /\ raw_Number_of_Pages a = raw_Number_of_Pages b
  /\ (raw_My_Rating a = raw_My_Rating b
      \/ (unrated (raw_My_Rating a) = true /\ unrated (raw_My_Rating b) = true)).

(** [scenario_B] rates "Emma" 0; here it is with the rating left empty. *)
Definition scenario_B_empty_rating : list book :=
  [ mk_book "Dune" "Herbert" 2 5 5 100; mk_book "Emma" "Austen" 1 20 nan 400 ].

(** Page counts that are not negative and whose sum fits int64: then no
    sum of the program wraps. *)
Definition pages_fit (df_range : list row) : Prop :=
  (forall r, In r df_range -> 0 <= Number_of_Pages r)
  /\ zsum (map Number_of_Pages df_range) < 2 ^ 63.

(** What [groupby] needs of the comparison of its keys. *)
Class KeyOrder {K : Type} (cmp : K -> K -> comparison) : Prop := {
  cmp_eq : forall a b, cmp a b = Eq <-> a = b;
  cmp_antisym : forall a b, cmp a b = CompOpp (cmp b a);
  cmp_trans : forall a b c, cmp a b = Lt -> cmp b c = Lt -> cmp a c = Lt
}.

(** Keys in strictly ascending order. *)
Definition key_lt {K : Type} (cmp : K -> K -> comparison) (a b : K) : Prop :=
  cmp a b = Lt.

(** The first date of a group (a group is never empty). *)
Definition group_first_date (g : string * list row) : date :=
  match min_date (map Date_Added (snd g)) with
  | Some d => d
  | None => {| year := 0; month := 0; day := 0 |}
  end.

(** The row of the month table built from one month group. *)
Definition month_row (g : string * list row) : string * Z * date :=
  (fst g, sum_int64 (map Number_of_Pages (snd g)), group_first_date g).

(** The table the page shows for a range and a stored selection: the rows
    of the range, restricted to the stored (month, rating) when there is
    one. *)
Definition effective_rows (frame : list row) (page_range : Z * Z)
    (stored : option selection) : list table_row :=
  let (low, high) := page_range in
  match stored with
  | Some s => to_records (segment_rows (page_filter frame low high)
                            (sel_month s) (sel_rating s))
  | None => to_records (page_filter frame low high)
  end.

(** The [customdata] row of a segment. *)
Definition hover_of (a : agg_row) : hover_row :=
  {| cd_Month_Read := a_Month_Read a;
     cd_pages := pages a;
     cd_month_pages := a_month_pages a;
     cd_Books := Books a;
     cd_Rating_Label := a_Rating_Label a |}.

(** A click on the chart point that carries [h]. *)
Definition click_on (h : hover_row) : click_data :=
  {| points := Some [ {| customdata := h |} ] |}.

(** The tooltip line of one book. *)
Definition book_line (r : row) : string :=
  Title r ++ " (" ++ Author r ++ ")".

(** The session of [scenario_A] right after page load. *)
Definition scenario_A_start : session :=
  {| s_clickData := None;
     s_page_range := (100, 300);
     s_selection_store := None;
     s_table := to_records (filtered scenario_A);
     s_figure := marimekko_figure (filtered scenario_A) |}.

(** A book whose rating cell is empty or a whole number of stars, 0 to 5,
    as the export writes them. *)
Definition star_rated (b : book) : Prop :=
  is_nan (raw_My_Rating b) = true
  \/ exists n, 0 <= n <= 5 /\ raw_My_Rating b = Py.float_of_Z n.

(** A frame as [filtered] builds it from real dates: every row is of 2025,
    in one of the twelve months, with its month key derived from its
    date. *)
Definition well_dated (frame : list row) : Prop :=
  forall r, In r frame ->
    year (Date_Added r) = 2025
    /\ 1 <= month (Date_Added r) <= 12
    /\ Month_Read r = period_M (Date_Added r).

(** * Properties *)

(** ** Selection toggle *)

Lemma selection_eqb_refl (s : selection) : selection_eqb s s = true.
Proof.
  unfold selection_eqb. now rewrite !String.eqb_refl.
Qed.

Lemma selection_eqb_eq (a b : selection) : selection_eqb a b = true <-> a = b.
Proof.
  destruct a as [ma ra], b as [mb rb]; unfold selection_eqb; cbn.
  rewrite andb_true_iff, !String.eqb_eq. split.
  - intros [-> ->]. reflexivity.
  - intros [= -> ->]. auto.
Qed.

(** A click on a segment, seen by the handler. *)
Lemma update_table_click (frame : list row) (pt : point) (pts : list point)
    (low high : Z) (stored : option selection) :
  update_table frame (Some {| points := Some (pt :: pts) |}) (low, high) stored =
  if stored_eqb stored (selection_of pt)
  then (to_records (page_filter frame low high), None)
  else (to_records (segment_rows (page_filter frame low high)
                      (sel_month (selection_of pt)) (sel_rating (selection_of pt))),
        Some (selection_of pt)).
Proof. reflexivity. Qed.

(** No call of the handler hands back the selection it was given: the
    store comes out empty or holding the clicked pair, which then differs
    from the stored one. *)
Lemma update_table_never_keeps (frame : list row) (clickData : option click_data)
    (page_range : Z * Z) (s : selection) :
  snd (update_table frame clickData page_range (Some s)) <> Some s.
Proof.
  destruct page_range as [low high].
  destruct clickData as [[[[|pt pts]|]]|]; cbn; try discriminate.
  destruct (selection_eqb s _) eqn:E; cbn; try discriminate.
  intros [= H]. rewrite <- H, selection_eqb_refl in E. discriminate.
Qed.

Lemma update_table_store (frame : list row) (clickData : option click_data)
    (page_range : Z * Z) (stored : option selection) (s : selection) :
  snd (update_table frame clickData page_range stored) = Some s ->
  exists pt pts, clickData = Some {| points := Some (pt :: pts) |}
                 /\ s = selection_of pt.
Proof.
  destruct page_range as [low high].
  destruct clickData as [[[[|pt pts]|]]|]; cbn; try discriminate.
  destruct (stored_eqb stored _); cbn; try discriminate.
  intros [= <-]. now exists pt, pts.
Qed.

Lemma reachable_store_follows_click (frame : list row) (st : session) :
  reachable frame st -> store_follows_click st.
Proof.
  induction 1 as [st Hstart | st ev _ _]; intros s Hs.
  - unfold startup in Hstart.
    destruct (min_pages frame), (max_pages frame); try discriminate.
    injection Hstart as <-. cbn in Hs. discriminate.
  - destruct ev as [cd | low high]; unfold fire in Hs |- *;
      cbn [s_selection_store s_clickData] in Hs |- *;
      apply update_table_store in Hs; exact Hs.
Qed.

(** Hence a slider move in a session with a selection always empties the
    store and shows the whole range. *)
Lemma range_change_clears_selection (frame : list row) (st : session)
    (s : selection) (low high : Z) :
  reachable frame st ->
  s_selection_store st = Some s ->
  s_selection_store (fire frame st (RangeChanged low high)) = None
  /\ s_table (fire frame st (RangeChanged low high))
     = to_records (page_filter frame low high).
Proof.
  intros Hr Hs.
  destruct (reachable_store_follows_click frame st Hr s Hs) as (pt & pts & Hc & ->).
  unfold fire; cbn [s_selection_store s_table].
  rewrite Hc, Hs, update_table_click. cbn [stored_eqb].
  rewrite selection_eqb_refl. split; reflexivity.
Qed.

(** C2: from an empty store, a click on segment (m, r) stores (m, r) and
    shows that segment's rows within the range; the same click again
    empties the store and shows exactly the rows of the page range. *)
Theorem toggle_twice_restores_range_rows (frame : list row) (pt : point)
    (pts : list point) (low high : Z) :
  let click := Some {| points := Some (pt :: pts) |} in
  let m := cd_Month_Read (customdata pt) in
  let r := cd_Rating_Label (customdata pt) in
  let first := update_table frame click (low, high) None in
  let second := update_table frame click (low, high) (snd first) in
  snd first = Some {| sel_month := m; sel_rating := r |}
  /\ fst first = to_records (segment_rows (page_filter frame low high) m r)
  /\ snd second = None
  /\ fst second = to_records (page_filter frame low high)
  /\ fst second = fst (update_table frame None (low, high) None).
Proof.
  cbn. rewrite selection_eqb_refl. cbn. repeat split; reflexivity.
Qed.

(** C10: with an empty store and a click datum for segment (m, r), the
    handler selects afresh: it returns the rows of (m, r) within the range
    and stores (m, r); in a session this is what a slider move does when a
    click is retained and the store is empty. *)
Theorem empty_store_with_click_selects (frame : list row) (pt : point)
    (pts : list point) (low high : Z) :
  let m := cd_Month_Read (customdata pt) in
  let r := cd_Rating_Label (customdata pt) in
  update_table frame (Some {| points := Some (pt :: pts) |}) (low, high) None
  = (to_records (segment_rows (page_filter frame low high) m r),
     Some {| sel_month := m; sel_rating := r |})
  /\ forall st : session,
       s_clickData st = Some {| points := Some (pt :: pts) |} ->
       s_selection_store st = None ->
       s_selection_store (fire frame st (RangeChanged low high))
       = Some {| sel_month := m; sel_rating := r |}
       /\ s_table (fire frame st (RangeChanged low high))
          = to_records (segment_rows (page_filter frame low high) m r).
Proof.
  cbn. split; [reflexivity|].
  intros st Hc Hs. rewrite Hc, Hs. cbn. split; reflexivity.
Qed.

(** C1 (the code departs from it): in [scenario_A], after a click on the
    5-star January segment the store holds that pair; moving the slider to
    [100, 200], where the pair has no book left, empties the store and
    shows every book of the range instead of an empty table. *)
Theorem range_change_drops_selection :
  let frame := filtered scenario_A in
  exists st0, startup frame = Some st0 /\
  let st1 := fire frame st0 (SegmentClicked click_dune) in
  let st2 := fire frame st1 (RangeChanged 100 200) in
  s_selection_store st1 = Some {| sel_month := "2025-01"; sel_rating := "5⭐" |}
  /\ segment_rows (page_filter frame 100 200) "2025-01" "5⭐" = []
  /\ s_selection_store st2 = None
  /\ s_table st2 = to_records (page_filter frame 100 200)
  /\ map t_Title (s_table st2) = ["Emma"].
Proof.
  eexists. split; [reflexivity|].
  repeat split; vm_compute; reflexivity.
Qed.


(** ** Record filter *)

Lemma between_iff (low high pages : Z) :
  between low high pages = true <-> low <= pages <= high.
Proof.
  unfold between. rewrite andb_true_iff, !Z.leb_le. tauto.
Qed.

Lemma page_filter_In (frame : list row) (low high : Z) (r : row) :
  In r (page_filter frame low high)
  <-> In r frame /\ low <= Number_of_Pages r <= high.
Proof.
  unfold page_filter. rewrite filter_In, between_iff. tauto.
Qed.

Lemma page_filter_nil_iff (frame : list row) (low high : Z) :
  page_filter frame low high = []
  <-> forall r, In r frame -> ~ (low <= Number_of_Pages r <= high).
Proof.
  split.
  - intros H r Hin Hr.
    assert (Hmem : In r (page_filter frame low high))
      by (apply page_filter_In; auto).
    rewrite H in Hmem. exact Hmem.
  - intros H. destruct (page_filter frame low high) as [|r rest] eqn:E; [reflexivity|].
    assert (Hmem : In r (page_filter frame low high)) by (rewrite E; now left).
    apply page_filter_In in Hmem. destruct Hmem as [Hin Hr].
    exfalso. exact (H r Hin Hr).
Qed.

Lemma fold_min_le (ps : list Z) (p : Z) :
  fold_left Z.min ps p <= p /\ forall q, In q ps -> fold_left Z.min ps p <= q.
Proof.
  revert p. induction ps as [|a ps IH]; intros p; cbn.
  - split; [lia | intros q []].
  - destruct (IH (Z.min p a)) as [H1 H2]. split; [lia|].
    intros q [<- | Hq]; [lia | auto].
Qed.

Lemma fold_max_ge (ps : list Z) (p : Z) :
  p <= fold_left Z.max ps p /\ forall q, In q ps -> q <= fold_left Z.max ps p.
Proof.
  revert p. induction ps as [|a ps IH]; intros p; cbn.
  - split; [lia | intros q []].
  - destruct (IH (Z.max p a)) as [H1 H2]. split; [lia|].
    intros q [<- | Hq]; [lia | auto].
Qed.

Lemma min_pages_le (frame : list row) (lo : Z) (r : row) :
  min_pages frame = Some lo -> In r frame -> lo <= Number_of_Pages r.
Proof.
  unfold min_pages. intros H Hin.
  apply (in_map Number_of_Pages) in Hin.
  destruct (map Number_of_Pages frame) as [|p ps]; [discriminate|].
  injection H as <-. destruct (fold_min_le ps p) as [H1 H2].
  destruct Hin as [<- | Hin]; auto.
Qed.

Lemma max_pages_ge (frame : list row) (hi : Z) (r : row) :
  max_pages frame = Some hi -> In r frame -> Number_of_Pages r <= hi.
Proof.
  unfold max_pages. intros H Hin.
  apply (in_map Number_of_Pages) in Hin.
  destruct (map Number_of_Pages frame) as [|p ps]; [discriminate|].
  injection H as <-. destruct (fold_max_ge ps p) as [H1 H2].
  destruct Hin as [<- | Hin]; auto.
Qed.

(** C7 as stated fails: [0, 1000] is outside the page counts [100, 300]
    of [scenario_A], and the filter keeps both books. *)
Lemma out_of_domain_range_not_empty :
  ~ (forall (frame : list row) (low high : Z),
       ~ in_domain frame low high -> page_filter frame low high = []).
Proof.
  intros H. specialize (H (filtered scenario_A) 0 1000).
  assert (Hout : ~ in_domain (filtered scenario_A) 0 1000).
  { intros (_ & lo & hi & Hlo & Hhi & Hle & _).
    vm_compute in Hlo. injection Hlo as <-. lia. }
  specialize (H Hout). vm_compute in H. discriminate.
Qed.

(** C7, amended: for every integer range the filter returns, in frame
    order, exactly the rows with [low <= pages <= high] (it is a function
    of the frame and the range, and the frame stays as it was); outside the
    slider's domain it returns the same subset, which is empty when the
    range is inverted or lies wholly below the smallest or above the
    largest page count. *)
Theorem page_filter_inclusive_total (frame : list row) (low high : Z) :
  (forall r, In r (page_filter frame low high)
             <-> In r frame /\ low <= Number_of_Pages r <= high)
  /\ page_filter frame low high
     = filter (fun r => (low <=? Number_of_Pages r) && (Number_of_Pages r <=? high)) frame
  /\ (high < low -> page_filter frame low high = [])
  /\ (forall lo hi, min_pages frame = Some lo -> max_pages frame = Some hi ->
        high < lo \/ hi < low -> page_filter frame low high = []).
Proof.
  split; [|split; [|split]].
  - intros r. apply page_filter_In.
  - reflexivity.
  - intros Hinv. apply page_filter_nil_iff. intros r _ Hr. lia.
  - intros lo hi Hlo Hhi Hout. apply page_filter_nil_iff. intros r Hin Hr.
    pose proof (min_pages_le frame lo r Hlo Hin).
    pose proof (max_pages_ge frame hi r Hhi Hin). lia.
Qed.

(** ** Empty range *)

Lemma update_table_rows_of_empty_range (frame : list row)
    (clickData : option click_data) (low high : Z) (stored : option selection) :
  page_filter frame low high = [] ->
  fst (update_table frame clickData (low, high) stored) = [].
Proof.
  intros H. unfold update_table. rewrite H.
  destruct clickData as [[[[|pt pts]|]]|]; cbn; try reflexivity.
  destruct (stored_eqb stored _); reflexivity.
Qed.

(** C3: when no record falls in the range, the chart handler returns the
    placeholder figure (no trace, both axes hidden, the title naming the
    range) whatever the aggregation and layout code would compute, and the
    table handler returns no row. *)
Theorem empty_range_placeholder (frame : list row) (low high : Z) :
  page_filter frame low high = [] ->
  update_marimekko frame (low, high) = empty_fig low high
  /\ data (update_marimekko frame (low, high)) = []
  /\ visible (xaxis (update_marimekko frame (low, high))) = false
  /\ visible (yaxis (update_marimekko frame (low, high))) = false
  /\ title (update_marimekko frame (low, high))
     = "No books between " ++ Py.str_of_int low ++ " and "
       ++ Py.str_of_int high ++ " pages"
  /\ (forall engine, update_marimekko_with engine frame (low, high) = empty_fig low high)
  /\ (forall clickData stored,
        fst (update_table frame clickData (low, high) stored) = []).
Proof.
  intros H.
  assert (Hany : forall engine,
             update_marimekko_with engine frame (low, high) = empty_fig low high).
  { intros engine. unfold update_marimekko_with. now rewrite H. }
  unfold update_marimekko. rewrite (Hany marimekko_figure).
  repeat split; try reflexivity; try exact Hany.
  intros clickData stored. now apply update_table_rows_of_empty_range.
Qed.

(** On an empty range the grand total would be 0, the divisor of every
    width. *)
Example grand_total_of_empty_range :
  grand_total_pages [] = 0 /\ month_totals [] = [] /\ agg [] = [].
Proof. repeat split. Qed.

Lemma empty_range_placeholder_witness :
  page_filter (filtered scenario_A) 0 10 = []
  /\ title (update_marimekko (filtered scenario_A) (0, 10))
     = "No books between 0 and 10 pages"
  /\ fst (update_table (filtered scenario_A) (Some click_dune) (0, 10) None) = [].
Proof.
  assert (H : page_filter (filtered scenario_A) 0 10 = []) by reflexivity.
  split; [exact H|].
  destruct (empty_range_placeholder (filtered scenario_A) 0 10 H)
    as (_ & _ & _ & _ & Ht & _ & Hrows).
  split; [exact Ht | apply Hrows].
Defined.

(** ** Rating labels *)

Lemma is_nan_eq (f : float) : is_nan f = true -> f = nan.
Proof.
  intros H. rewrite <- (SF2Prim_Prim2SF f). unfold Prim2SF. now rewrite H.
Qed.




Lemma is_integer_int (x : float) :
  Py.is_integer x = true -> exists n, Py.int x = Py.Ok n.
Proof.
  unfold Py.is_integer, Py.int.
  destruct (Prim2SF x); try discriminate; eauto.
Qed.

(** [round_tenths] is the nearest number of tenths: for [m * 2^e] with
    [e < 0] it is within half a tenth of the exact value. *)
Lemma round_tenths_nearest (m : positive) (e : Z) :
  e < 0 ->
  2 * Z.abs (Py.round_tenths m e * 2 ^ (- e) - Z.pos m * 10) <= 2 ^ (- e).
Proof.
  intros He. unfold Py.round_tenths.
  destruct (Z.leb_spec 0 e) as [H|_]; [lia|].
  assert (Hd : 0 < 2 ^ (- e)) by (apply Z.pow_pos_nonneg; lia).
  pose proof (Z.div_mod (Z.pos m * 10) (2 ^ (- e)) ltac:(lia)) as Hdm.
  pose proof (Z.mod_pos_bound (Z.pos m * 10) (2 ^ (- e)) Hd) as Hb.
  set (d := 2 ^ (- e)) in *.
  set (q := Z.pos m * 10 / d) in *.
  set (r := (Z.pos m * 10) mod d) in *.
  destruct (Z.compare_spec (2 * r) d) as [Heq | Hlt | Hgt].
  - destruct (Z.even q); nia.
  - nia.
  - nia.
Qed.


(** The star ratings 1..5 get the labels of the legend, and a rating with
    a half star keeps one decimal. *)
Example rating_labels_1_to_5 :
  map (fun n => rating_label_from_value (Py.PFloat (Py.float_of_Z n))) [1; 2; 3; 4; 5]
  = tl legend_labels
  /\ map (fun n => rating_label_from_value (Py.PInt n)) [1; 2; 3; 4; 5]
     = tl legend_labels
  /\ rating_label_from_value (Py.PFloat 3.5) = "3.5⭐"
  /\ rating_label_from_value (Py.PFloat 0.25) = "0.2⭐"
  /\ rating_label_from_value (Py.PObj None) = "Unrated"
  /\ rating_label_from_value (Py.PInt (2 ^ 1024)) = "Unrated".
Proof. repeat split; vm_compute; reflexivity. Qed.

(** For the ratings the data holds, 0 to 5 stars, the integer shown is
    the rating itself, whether the cell is an int or a float. *)
Lemma rating_label_stars (n : Z) :
  0 <= n <= 5 ->
  rating_label_from_value (Py.PInt n) = Py.str_of_int n ++ "⭐"
  /\ rating_label_from_value (Py.PFloat (Py.float_of_Z n)) = Py.str_of_int n ++ "⭐".
Proof.
  intros H.
  assert (Hn : n = 0 \/ n = 1 \/ n = 2 \/ n = 3 \/ n = 4 \/ n = 5) by lia.
  destruct Hn as [-> | [-> | [-> | [-> | [-> | ->]]]]]; split; reflexivity.
Qed.

(** ** Rating 0 is "Unrated" *)

Lemma zero_to_nan_unrated (rating : float) :
  unrated rating = true -> zero_to_nan rating = nan.
Proof.
  unfold unrated, zero_to_nan. intros H.
  destruct (rating =? 0)%float; [reflexivity|].
  cbn in H. now apply is_nan_eq.
Qed.

Lemma filtered_row_same_but_unrated (a b : book) :
  same_but_unrated a b -> filtered_row a = filtered_row b.
Proof.
  intros (Ht & Ha & Hd & Hs & Hp & Hr).
  assert (Hz : zero_to_nan (raw_My_Rating a) = zero_to_nan (raw_My_Rating b)).
  { destruct Hr as [-> | [H1 H2]]; [reflexivity|].
    now rewrite !zero_to_nan_unrated. }
  unfold filtered_row, mask_2025, mask_shelf.
  now rewrite Ht, Ha, Hd, Hs, Hp, Hz.
Qed.

(** C6: rating 0 is turned into the empty rating before any label or
    group is computed, so a row rated 0 and a row with no rating both get
    the label "Unrated" and the rating NaN, and two data sets that differ
    only in writing 0 or nothing for unrated books give the same frame,
    hence the same aggregates, the same chart and the same table. *)
Theorem zero_rating_is_unrated (df1 df2 : list book) :
  Forall2 same_but_unrated df1 df2 ->
  (forall b r, filtered_row b = Some r -> unrated (raw_My_Rating b) = true ->
               Rating_Label r = "Unrated" /\ My_Rating r = nan)
  /\ rating_label_from_value (Py.PFloat (zero_to_nan 0)) = "Unrated"
  /\ rating_label_from_value (Py.PFloat (zero_to_nan nan)) = "Unrated"
  /\ filtered df1 = filtered df2
  /\ (forall low high,
        agg (page_filter (filtered df1) low high)
        = agg (page_filter (filtered df2) low high)
        /\ month_totals (page_filter (filtered df1) low high)
           = month_totals (page_filter (filtered df2) low high))
  /\ (forall page_range,
        update_marimekko (filtered df1) page_range
        = update_marimekko (filtered df2) page_range)
  /\ (forall clickData page_range stored,
        update_table (filtered df1) clickData page_range stored
        = update_table (filtered df2) clickData page_range stored).
Proof.
  intros H.
  assert (Hf : filtered df1 = filtered df2).
  { unfold filtered. induction H as [|a b l1 l2 Hab _ IH]; cbn; [reflexivity|].
    now rewrite (filtered_row_same_but_unrated a b Hab), IH. }
  rewrite Hf. split; [|repeat split; reflexivity].
  intros b r Hr Hu. unfold filtered_row in Hr.
  destruct (raw_Date_Added b); [|discriminate].
  destruct (mask_2025 b && mask_shelf b); [|discriminate].
  injection Hr as <-. cbn. rewrite (zero_to_nan_unrated _ Hu). split; reflexivity.
Qed.

Lemma zero_rating_is_unrated_witness :
  Forall2 same_but_unrated scenario_B scenario_B_empty_rating
  /\ filtered scenario_B = filtered scenario_B_empty_rating
  /\ map Rating_Label (filtered scenario_B) = ["5⭐"; "Unrated"].
Proof.
  assert (H : Forall2 same_but_unrated scenario_B scenario_B_empty_rating).
  { constructor; [|constructor; [|constructor]].
    - repeat split. now left.
    - repeat split. right. split; reflexivity. }
  split; [exact H|].
  split; [exact (proj1 (proj2 (proj2 (proj2 (zero_rating_is_unrated _ _ H))))) | reflexivity].
Defined.

(** ** Group-by: every row falls in exactly one group *)

Lemma int64_add_l (a b : Z) : int64 (int64 a + b) = int64 (a + b).
Proof.
  unfold int64. generalize (2 ^ 63) (2 ^ 64). intros h m. f_equal.
  replace ((a + h) mod m - h + b + h) with ((a + h) mod m + b) by ring.
  rewrite Zplus_mod_idemp_l. f_equal. ring.
Qed.

Lemma int64_idem (a : Z) : int64 (int64 a) = int64 a.
Proof.
  pose proof (int64_add_l a 0) as H. now rewrite !Z.add_0_r in H.
Qed.

Lemma int64_small (a : Z) : - 2 ^ 63 <= a < 2 ^ 63 -> int64 a = a.
Proof.
  intros H. unfold int64. rewrite Z.mod_small; lia.
Qed.

Lemma sum_int64_from (col : list Z) (a : Z) :
  int64 a = a ->
  fold_left (fun acc p => int64 (acc + p)) col a = int64 (a + zsum col).
Proof.
  revert a. induction col as [|p col IH]; intros a Ha;
    cbn [fold_left zsum].
  - now rewrite Z.add_0_r.
  - rewrite IH by apply int64_idem.
    rewrite int64_add_l. f_equal. ring.
Qed.

Lemma sum_int64_zsum (col : list Z) : sum_int64 col = int64 (zsum col).
Proof.
  unfold sum_int64. now rewrite sum_int64_from.
Qed.

Lemma zsum_app (l1 l2 : list Z) : zsum (l1 ++ l2) = zsum l1 + zsum l2.
Proof.
  induction l1 as [|a l1 IH]; cbn; lia.
Qed.

Lemma zsum_perm (l1 l2 : list Z) : Permutation l1 l2 -> zsum l1 = zsum l2.
Proof.
  induction 1; cbn; lia.
Qed.

(** A sum of wrapped sums wraps to the sum of the sums. *)
Lemma int64_zsum_map {A : Type} (f : A -> Z) (l : list A) :
  int64 (zsum (map (fun a => int64 (f a)) l)) = int64 (zsum (map f l)).
Proof.
  induction l as [|a l IH]; cbn; [reflexivity|].
  rewrite int64_add_l.
  rewrite (Z.add_comm (f a)), <- int64_add_l, IH, int64_add_l.
  f_equal. lia.
Qed.

Lemma zsum_filter_split {R : Type} (f : R -> Z) (p : R -> bool) (l : list R) :
  zsum (map f l)
  = zsum (map f (filter p l)) + zsum (map f (filter (fun r => negb (p r)) l)).
Proof.
  induction l as [|r l IH]; cbn; [reflexivity|].
  destruct (p r); cbn; lia.
Qed.

Lemma filter_filter_implied {R : Type} (p q : R -> bool) (l : list R) :
  (forall r, p r = true -> q r = true) ->
  filter p (filter q l) = filter p l.
Proof.
  intros H. induction l as [|r l IH]; cbn; [reflexivity|].
  destruct (q r) eqn:Eq; cbn.
  - destruct (p r); now rewrite IH.
  - destruct (p r) eqn:Ep; [|exact IH].
    apply H in Ep. congruence.
Qed.

Section GroupByFacts.
Context {K : Type} (cmp : K -> K -> comparison) `{KeyOrder K cmp}.

Lemma cmp_refl (a : K) : cmp a a = Eq.
Proof. now apply cmp_eq. Qed.

Lemma key_eqb_true (a b : K) : key_eqb cmp a b = true <-> a = b.
Proof.
  unfold key_eqb. rewrite <- cmp_eq.
  destruct (cmp a b); split; intros; congruence.
Qed.

Lemma key_eqb_false (a b : K) : key_eqb cmp a b = false <-> a <> b.
Proof.
  rewrite <- key_eqb_true. destruct (key_eqb cmp a b); split; congruence.
Qed.

Lemma insert_key_In (k : K) (keys : list K) (x : K) :
  In x (insert_key cmp k keys) <-> x = k \/ In x keys.
Proof.
  induction keys as [|a keys IH]; cbn.
  - intuition.
  - destruct (cmp k a) eqn:E; cbn.
    + apply cmp_eq in E. subst a. intuition.
    + intuition.
    + rewrite IH. intuition.
Qed.

Lemma insert_key_sorted (k : K) (keys : list K) :
  StronglySorted (key_lt cmp) keys -> StronglySorted (key_lt cmp) (insert_key cmp k keys).
Proof.
  induction 1 as [|a keys Hs IH Hall]; cbn.
  - constructor; constructor.
  - destruct (cmp k a) eqn:E.
    + now constructor.
    + constructor; [now constructor|].
      constructor; [exact E|].
      rewrite Forall_forall in Hall |- *. intros y Hy.
      exact (cmp_trans k a y E (Hall y Hy)).
    + constructor; [exact IH|].
      rewrite Forall_forall in Hall |- *. intros y Hy.
      apply insert_key_In in Hy. destruct Hy as [-> | Hy]; [|auto].
      unfold key_lt. rewrite cmp_antisym, E. reflexivity.
Qed.

Lemma fold_insert_key_In (col acc : list K) (x : K) :
  In x (fold_left (fun keys k => insert_key cmp k keys) col acc)
  <-> In x col \/ In x acc.
Proof.
  revert acc. induction col as [|k col IH]; intros acc; cbn.
  - intuition.
  - rewrite IH, insert_key_In. intuition.
Qed.

Lemma fold_insert_key_sorted (col acc : list K) :
  StronglySorted (key_lt cmp) acc ->
  StronglySorted (key_lt cmp) (fold_left (fun keys k => insert_key cmp k keys) col acc).
Proof.
  revert acc. induction col as [|k col IH]; intros acc Hs; cbn; [exact Hs|].
  apply IH. now apply insert_key_sorted.
Qed.

(** [group_keys] lists the keys of the column, each once. *)
Lemma group_keys_In (col : list K) (x : K) : In x (group_keys cmp col) <-> In x col.
Proof.
  unfold group_keys. rewrite fold_insert_key_In. cbn. intuition.
Qed.

Lemma group_keys_sorted (col : list K) : StronglySorted (key_lt cmp) (group_keys cmp col).
Proof.
  apply fold_insert_key_sorted. constructor.
Qed.

Lemma sorted_NoDup (keys : list K) : StronglySorted (key_lt cmp) keys -> NoDup keys.
Proof.
  induction 1 as [|a keys Hs IH Hall]; constructor; [|exact IH].
  intros Hin. rewrite Forall_forall in Hall.
  specialize (Hall a Hin). unfold key_lt in Hall.
  rewrite cmp_refl in Hall. discriminate.
Qed.

Lemma group_keys_NoDup (col : list K) : NoDup (group_keys cmp col).
Proof.
  apply sorted_NoDup, group_keys_sorted.
Qed.

(** Summing group by group is summing the frame. *)
Lemma zsum_by_key {R : Type} (key : R -> K) (f : R -> Z) (keys : list K) :
  NoDup keys ->
  forall frame : list R,
  (forall r, In r frame -> In (key r) keys) ->
  zsum (map (fun k => zsum (map f (filter (fun r => key_eqb cmp (key r) k) frame))) keys)
  = zsum (map f frame).
Proof.
  induction 1 as [|k keys Hk Hnd IH]; intros frame Hcov.
  - destruct frame as [|r frame]; [reflexivity|].
    destruct (Hcov r (or_introl eq_refl)).
  - cbn [map zsum].
    rewrite (zsum_filter_split f (fun r => key_eqb cmp (key r) k) frame).
    f_equal.
    set (rest := filter (fun r => negb (key_eqb cmp (key r) k)) frame).
    rewrite <- (IH rest).
    + f_equal. apply map_ext_in. intros k' Hk'. f_equal. f_equal.
      symmetry. apply filter_filter_implied.
      intros r Hr. apply key_eqb_true in Hr.
      apply negb_true_iff, key_eqb_false. intros Heq.
      apply Hk. congruence.
    + intros r Hr. apply filter_In in Hr. destruct Hr as [Hin Hne].
      apply negb_true_iff, key_eqb_false in Hne.
      destruct (Hcov r Hin) as [Heq | Hin']; [congruence | exact Hin'].
Qed.

(** The groups of [groupby] partition the frame. *)
Lemma groupby_sums {R : Type} (key : R -> K) (f : R -> Z) (frame : list R) :
  zsum (map (fun g => zsum (map f (snd g))) (groupby cmp key frame))
  = zsum (map f frame).
Proof.
  unfold groupby. rewrite map_map. cbn [snd].
  apply zsum_by_key; [apply group_keys_NoDup|].
  intros r Hr. apply group_keys_In. now apply in_map.
Qed.

Lemma groupby_keys {R : Type} (key : R -> K) (frame : list R) :
  map fst (groupby cmp key frame) = group_keys cmp (map key frame).
Proof.
  unfold groupby. rewrite map_map. cbn [fst]. apply map_id.
Qed.

(** No group is empty. *)
Lemma groupby_nonempty {R : Type} (key : R -> K) (frame : list R) (g : K * list R) :
  In g (groupby cmp key frame) -> snd g <> [].
Proof.
  unfold groupby. intros Hg. apply in_map_iff in Hg.
  destruct Hg as (k & <- & Hk). cbn [snd].
  apply group_keys_In, in_map_iff in Hk. destruct Hk as (r & Hr & Hin).
  intros Hnil.
  assert (Hmem : In r (filter (fun r0 => key_eqb cmp (key r0) k) frame)).
  { apply filter_In. split; [exact Hin|]. now apply key_eqb_true. }
  rewrite Hnil in Hmem. exact Hmem.
Qed.

End GroupByFacts.

#[export] Instance string_key_order : KeyOrder String.compare.
Proof.
  split.
  - exact String_as_OT.cmp_eq.
  - exact String.compare_antisym.
  - intros a b c Hab Hbc.
    apply String_as_OT.cmp_lt in Hab, Hbc. apply String_as_OT.cmp_lt.
    exact (String_as_OT.lt_trans a b c Hab Hbc).
Qed.

#[export] Instance pair_key_order : KeyOrder pair_compare.
Proof.
  split.
  - intros [a1 a2] [b1 b2]. unfold pair_compare. cbn [fst snd].
    destruct (String.compare a1 b1) eqn:E1.
    + apply String_as_OT.cmp_eq in E1. subst b1.
      rewrite (cmp_eq (cmp := String.compare)). split; congruence.
    + split; [discriminate|]. intros [= -> _].
      rewrite (cmp_refl String.compare) in E1. discriminate.
    + split; [discriminate|]. intros [= -> _].
      rewrite (cmp_refl String.compare) in E1. discriminate.
  - intros [a1 a2] [b1 b2]. unfold pair_compare. cbn [fst snd].
    rewrite (String.compare_antisym a1 b1), (String.compare_antisym a2 b2).
    destruct (String.compare b1 a1); reflexivity.
  - intros [a1 a2] [b1 b2] [c1 c2]. unfold pair_compare. cbn [fst snd].
    destruct (String.compare a1 b1) eqn:Eab; try discriminate;
      destruct (String.compare b1 c1) eqn:Ebc; try discriminate.
    + apply String_as_OT.cmp_eq in Eab, Ebc. subst.
      rewrite (cmp_refl String.compare). apply (cmp_trans (cmp := String.compare)).
    + apply String_as_OT.cmp_eq in Eab. subst. now rewrite Ebc.
    + apply String_as_OT.cmp_eq in Ebc. subst. now rewrite Eab.
    + now rewrite (cmp_trans (cmp := String.compare) a1 b1 c1 Eab Ebc).
Qed.

(** ** The month table and the segment table, group by group *)

Lemma flat_map_map_singleton {A B C : Type} (h : A -> B) (f : B -> list C)
    (g : A -> C) (l : list A) :
  (forall x, In x l -> f (h x) = [g x]) ->
  flat_map f (map h l) = map g l.
Proof.
  induction l as [|x l IH]; intros Hf; cbn; [reflexivity|].
  rewrite (Hf x (or_introl eq_refl)), IH; [reflexivity|].
  intros y Hy. apply Hf. now right.
Qed.

Lemma filter_all_false {A : Type} (p : A -> bool) (l : list A) :
  (forall x, In x l -> p x = false) -> filter p l = [].
Proof.
  induction l as [|x l IH]; intros Hp; cbn; [reflexivity|].
  rewrite (Hp x (or_introl eq_refl)). apply IH. intros y Hy. apply Hp. now right.
Qed.

(** In a table whose keys are distinct, selecting by the key of a row
    finds that row alone. *)
Lemma filter_key_unique {A K : Type} (eqb : K -> K -> bool) (key : A -> K)
    (l : list A) (a : A) :
  (forall x y, eqb x y = true <-> x = y) ->
  NoDup (map key l) -> In a l ->
  filter (fun x => eqb (key x) (key a)) l = [a].
Proof.
  intros Heqb. induction l as [|x l IH]; intros Hnd Hin; [destruct Hin|].
  cbn [map] in Hnd. apply NoDup_cons_iff in Hnd. destruct Hnd as [Hx Hnd].
  cbn [filter]. destruct Hin as [-> | Hin].
  - rewrite (proj2 (Heqb (key a) (key a)) eq_refl). f_equal.
    apply filter_all_false. intros y Hy.
    destruct (eqb (key y) (key a)) eqn:E; [|reflexivity].
    apply Heqb in E. exfalso. apply Hx. rewrite <- E. now apply in_map.
  - destruct (eqb (key x) (key a)) eqn:E.
    + apply Heqb in E. exfalso. apply Hx. rewrite E. now apply in_map.
    + now apply IH.
Qed.

Lemma insert_sorted_perm {R : Type} (leb : R -> R -> bool) (r : R) (l : list R) :
  Permutation (insert_sorted leb r l) (r :: l).
Proof.
  induction l as [|x l IH]; cbn; [reflexivity|].
  destruct (leb r x); [reflexivity|].
  rewrite IH. apply perm_swap.
Qed.

Lemma sort_values_perm {R : Type} (leb : R -> R -> bool) (l : list R) :
  Permutation (sort_values leb l) l.
Proof.
  induction l as [|x l IH]; cbn; [reflexivity|].
  rewrite insert_sorted_perm. now constructor.
Qed.

Lemma month_groups_NoDup (df_range : list row) :
  NoDup (map fst (groupby String.compare Month_Read df_range)).
Proof.
  rewrite (groupby_keys String.compare). apply (group_keys_NoDup String.compare).
Qed.

(** The month table holds one row per month group, sorted by first date. *)
Lemma month_table_groups (df_range : list row) :
  month_table df_range
  = sort_values (fun a b => date_leb (snd a) (snd b))
      (map month_row (groupby String.compare Month_Read df_range)).
Proof.
  unfold month_table.
  set (groups := groupby String.compare Month_Read df_range).
  assert (Hfirst :
    flat_map (fun g => match min_date (map Date_Added (snd g)) with
                       | Some d => [(fst g, d)]
                       | None => []
                       end) groups
    = map (fun g => (fst g, group_first_date g)) groups).
  { rewrite <- (map_id groups) at 1. apply flat_map_map_singleton.
    intros g Hg. unfold group_first_date.
    apply (groupby_nonempty String.compare) in Hg.
    destruct (snd g) as [|r rows]; [congruence|]. reflexivity. }
  rewrite Hfirst. f_equal.
  apply flat_map_map_singleton. intros g Hg. cbn [fst snd].
  rewrite (filter_key_unique String.eqb fst _ (fst g, group_first_date g)).
  - reflexivity.
  - exact String.eqb_eq.
  - rewrite map_map. cbn [fst]. apply month_groups_NoDup.
  - apply (in_map (fun g0 => (fst g0, group_first_date g0))). exact Hg.
Qed.

(** The grand total is the wrapped sum of all page counts in range. *)
Lemma grand_total_pages_sum (df_range : list row) :
  grand_total_pages df_range = int64 (zsum (map Number_of_Pages df_range)).
Proof.
  unfold grand_total_pages. rewrite sum_int64_zsum, month_table_groups.
  rewrite (zsum_perm _ _ (Permutation_map _ (sort_values_perm _ _))).
  rewrite map_map. unfold month_row. cbn [fst snd].
  rewrite (map_ext _ (fun g => int64 (zsum (map Number_of_Pages (snd g)))))
    by (intros g; apply sum_int64_zsum).
  rewrite (int64_zsum_map (fun g => zsum (map Number_of_Pages (snd g)))).
  now rewrite (groupby_sums String.compare).
Qed.

Lemma length_cumsum_from (acc : float) (col : list float) :
  List.length (cumsum_from acc col) = List.length col.
Proof.
  revert acc. induction col as [|w col IH]; intros acc; cbn; [reflexivity|].
  now rewrite IH.
Qed.

Lemma length_cumsum (col : list float) : List.length (cumsum col) = List.length col.
Proof.
  destruct col as [|w col]; cbn; [reflexivity|]. now rewrite length_cumsum_from.
Qed.

Lemma length_removelast_cons {A : Type} (a : A) (l : list A) :
  List.length (removelast (a :: l)) = List.length l.
Proof.
  revert a. induction l as [|b l IH]; intros a; [reflexivity|].
  change (removelast (a :: b :: l)) with (a :: removelast (b :: l)).
  cbn [List.length]. now rewrite IH.
Qed.

Lemma length_shift (col : list float) : List.length (shift col) = List.length col.
Proof.
  destruct col as [|w col]; [reflexivity|].
  unfold shift. cbn [List.length]. now rewrite length_removelast_cons.
Qed.

Lemma combine_map_fst {A B C : Type} (f : A -> C) (l1 : list A) (l2 : list B) :
  List.length l1 = List.length l2 ->
  map (fun c => f (fst c)) (combine l1 l2) = map f l1.
Proof.
  revert l2. induction l1 as [|a l1 IH]; intros [|b l2] Hlen; cbn;
    try reflexivity; try discriminate.
  injection Hlen as Hlen. now rewrite IH.
Qed.

Lemma combine_map_snd {A B C : Type} (f : B -> C) (l1 : list A) (l2 : list B) :
  List.length l1 = List.length l2 ->
  map (fun c => f (snd c)) (combine l1 l2) = map f l2.
Proof.
  revert l2. induction l1 as [|a l1 IH]; intros [|b l2] Hlen; cbn;
    try reflexivity; try discriminate.
  injection Hlen as Hlen. now rewrite IH.
Qed.

Lemma length_combine_same {A B : Type} (l1 : list A) (l2 : list B) :
  List.length l1 = List.length l2 -> List.length (combine l1 l2) = List.length l1.
Proof.
  intros H. rewrite length_combine, <- H. apply Nat.min_id.
Qed.

(** The columns of [month_totals]: the first three are the month table,
    the widths are the page shares. *)
Lemma month_totals_columns (df_range : list row) :
  map (fun mt => (mt_Month_Read mt, month_pages mt, first_date mt))
      (month_totals df_range)
  = month_table df_range
  /\ map width_prop (month_totals df_range)
     = map (fun m => (Py.float_of_Z (snd (fst m))
                      / Py.float_of_Z (grand_total_pages df_range))%float)
           (month_table df_range).
Proof.
  unfold month_totals.
  set (table := month_table df_range).
  set (w := map _ table).
  set (s := shift (cumsum w)).
  set (e := map _ (combine s w)).
  set (c := map _ (combine s e)).
  assert (Hw : List.length w = List.length table) by (unfold w; apply length_map).
  assert (Hs : List.length s = List.length table)
    by (unfold s; now rewrite length_shift, length_cumsum).
  assert (He : List.length e = List.length table).
  { unfold e. rewrite length_map, length_combine_same; congruence. }
  assert (Hc : List.length c = List.length table).
  { unfold c. rewrite length_map, length_combine_same; congruence. }
  assert (H3 : List.length (combine e c) = List.length table)
    by (rewrite length_combine_same; congruence).
  assert (H2 : List.length (combine s (combine e c)) = List.length table)
    by (rewrite length_combine_same; congruence).
  assert (H1 : List.length (combine w (combine s (combine e c))) = List.length table)
    by (rewrite length_combine_same; congruence).
  split; rewrite map_map.
  - rewrite (map_ext _ (fun x => fst x)).
    + rewrite (combine_map_fst (fun m => m)), map_id; congruence.
    + intros [[[k p] d] [w0 [s0 [e0 c0]]]]. reflexivity.
  - rewrite (map_ext _ (fun x => fst (snd x))).
    + rewrite (combine_map_snd (fun y => fst y)) by congruence.
      rewrite (combine_map_fst (fun y => y)), map_id; congruence.
    + intros [[[k p] d] [w0 [s0 [e0 c0]]]]. reflexivity.
Qed.

Lemma month_totals_months (df_range : list row) :
  Permutation (map mt_Month_Read (month_totals df_range))
              (group_keys String.compare (map Month_Read df_range)).
Proof.
  destruct (month_totals_columns df_range) as [Hcols _].
  rewrite <- (groupby_keys String.compare).
  replace (map mt_Month_Read (month_totals df_range))
    with (map (fun t : string * Z * date => fst (fst t)) (month_table df_range))
    by (rewrite <- Hcols, map_map; reflexivity).
  rewrite month_table_groups.
  rewrite (Permutation_map _ (sort_values_perm _ _)), map_map. reflexivity.
Qed.

Lemma month_totals_NoDup (df_range : list row) :
  NoDup (map mt_Month_Read (month_totals df_range)).
Proof.
  apply (Permutation_NoDup (Permutation_sym (month_totals_months df_range))).
  apply (group_keys_NoDup String.compare).
Qed.

(** Every month of the frame has its row in [month_totals], holding the
    wrapped sum of the month's page counts. *)
Lemma month_totals_row (df_range : list row) (mt : month_total) :
  In mt (month_totals df_range) ->
  In (mt_Month_Read mt) (map Month_Read df_range)
  /\ month_pages mt
     = int64 (zsum (map Number_of_Pages (month_rows df_range (mt_Month_Read mt)))).
Proof.
  intros Hin.
  destruct (month_totals_columns df_range) as [Hcols _].
  assert (Ht : In (mt_Month_Read mt, month_pages mt, first_date mt)
                  (month_table df_range)).
  { rewrite <- Hcols.
    apply (in_map (fun mt => (mt_Month_Read mt, month_pages mt, first_date mt))).
    exact Hin. }
  rewrite month_table_groups in Ht.
  apply (Permutation_in _ (sort_values_perm _ _)) in Ht.
  apply in_map_iff in Ht. destruct Ht as (g & Hg & Hgin).
  unfold groupby in Hgin. apply in_map_iff in Hgin.
  destruct Hgin as (k & <- & Hk).
  unfold month_row in Hg. cbn [fst snd] in Hg. injection Hg as Hm Hp _.
  subst k. split.
  - exact (proj1 (group_keys_In String.compare _ _) Hk).
  - rewrite <- Hp, sum_int64_zsum. unfold month_rows. do 3 f_equal.
    apply filter_ext. intros r.
    destruct (String.eqb_spec (Month_Read r) (mt_Month_Read mt)) as [E | E].
    + now apply (key_eqb_true String.compare).
    + now apply (key_eqb_false String.compare).
Qed.

Lemma month_totals_has (df_range : list row) (m : string) :
  In m (map Month_Read df_range) ->
  exists mt, In mt (month_totals df_range) /\ mt_Month_Read mt = m.
Proof.
  intros Hm.
  apply (group_keys_In String.compare) in Hm.
  apply (Permutation_in _ (Permutation_sym (month_totals_months df_range))) in Hm.
  apply in_map_iff in Hm. destruct Hm as (mt & Hmt & Hin). now exists mt.
Qed.

Lemma map_flat_map_singleton {A B C D : Type} (h : A -> B) (f : B -> list C)
    (proj : C -> D) (g : A -> D) (l : list A) :
  (forall x, In x l -> exists y, f (h x) = [y] /\ proj y = g x) ->
  map proj (flat_map f (map h l)) = map g l.
Proof.
  induction l as [|x l IH]; intros Hf; cbn; [reflexivity|].
  destruct (Hf x (or_introl eq_refl)) as (y & -> & Hy).
  cbn. rewrite Hy, IH; [reflexivity|].
  intros z Hz. apply Hf. now right.
Qed.

Lemma segment_groups_NoDup (df_range : list row) :
  NoDup (map fst (groupby pair_compare segment_key df_range)).
Proof.
  rewrite (groupby_keys pair_compare). apply (group_keys_NoDup pair_compare).
Qed.

(** Every row of [agg] joins one segment group with the row of its month. *)
Lemma agg_row_month (df_range : list row) (a : agg_row) :
  In a (agg df_range) ->
  exists mt, In mt (month_totals df_range)
             /\ mt_Month_Read mt = a_Month_Read a
             /\ a_month_pages a = month_pages mt
             /\ a_width_prop a = width_prop mt
             /\ a_x_center a = x_center mt
             /\ height a = (Py.float_of_Z (pages a) / Py.float_of_Z (month_pages mt))%float.
Proof.
  unfold agg. intros Ha. apply in_flat_map in Ha.
  destruct Ha as ([[key p] books] & _ & Ha).
  apply in_map_iff in Ha. destruct Ha as (mt & <- & Hmt).
  apply filter_In in Hmt. destruct Hmt as [Hin Hm]. apply String.eqb_eq in Hm.
  exists mt. cbn. repeat split; auto.
Qed.

(** [agg] has one row per segment group, carrying the wrapped sum of the
    group's page counts. *)
Lemma agg_segments (df_range : list row) :
  map (fun a => (a_Month_Read a, a_Rating_Label a, pages a)) (agg df_range)
  = map (fun g => (fst (fst g), snd (fst g), sum_int64 (map Number_of_Pages (snd g))))
        (groupby pair_compare segment_key df_range).
Proof.
  unfold agg.
  set (groups := groupby pair_compare segment_key df_range).
  assert (Hbooks :
    flat_map (fun p : string * string * Z =>
      map (fun b : string * string * string => (fst p, snd p, snd b))
          (filter (fun b => key_eqb pair_compare (fst b) (fst p))
             (map (fun g => (fst g, summarize_books (snd g))) groups)))
      (map (fun g => (fst g, sum_int64 (map Number_of_Pages (snd g)))) groups)
    = map (fun g => (fst g, sum_int64 (map Number_of_Pages (snd g)),
                     summarize_books (snd g))) groups).
  { apply flat_map_map_singleton. intros g Hg. cbn [fst snd].
    rewrite (filter_key_unique (key_eqb pair_compare) fst _
               (fst g, summarize_books (snd g))).
    - reflexivity.
    - apply (key_eqb_true pair_compare).
    - rewrite map_map. cbn [fst]. apply segment_groups_NoDup.
    - apply (in_map (fun g0 => (fst g0, summarize_books (snd g0)))). exact Hg. }
  rewrite Hbooks.
  apply map_flat_map_singleton. intros g Hg. cbn [fst snd].
  assert (Hm : In (fst (fst g)) (map Month_Read df_range)).
  { apply (in_map fst) in Hg. unfold groups in Hg.
    rewrite (groupby_keys pair_compare) in Hg.
    apply (group_keys_In pair_compare), in_map_iff in Hg.
    destruct Hg as (r & Hr & Hin). rewrite <- Hr. cbn [segment_key fst].
    now apply in_map. }
  destruct (month_totals_has df_range _ Hm) as (mt & Hin & Hmt).
  rewrite <- Hmt.
  rewrite (filter_key_unique String.eqb mt_Month_Read _ mt String.eqb_eq
             (month_totals_NoDup df_range) Hin).
  eexists. split; [reflexivity|]. cbn. now rewrite Hmt.
Qed.

Lemma map_filter_proj {A B : Type} (proj : A -> B) (p : B -> bool) (l : list A) :
  map proj (filter (fun a => p (proj a)) l) = filter p (map proj l).
Proof.
  induction l as [|a l IH]; cbn; [reflexivity|].
  destruct (p (proj a)); cbn; now rewrite IH.
Qed.

(** The page counts of a month's segments, listed by segment key. *)
Lemma month_segments_pages_list (df_range : list row) (m : string) :
  map pages (month_segments df_range m)
  = map (fun k => sum_int64 (map Number_of_Pages
                    (filter (fun r => key_eqb pair_compare (segment_key r) k)
                            (month_rows df_range m))))
        (filter (fun k : string * string => String.eqb (fst k) m)
                (group_keys pair_compare (map segment_key df_range))).
Proof.
  unfold month_segments.
  set (triple := fun a => (a_Month_Read a, a_Rating_Label a, pages a)).
  replace (map pages (filter (fun a => String.eqb (a_Month_Read a) m) (agg df_range)))
    with (map snd (filter (fun t : string * string * Z => String.eqb (fst (fst t)) m)
                          (map triple (agg df_range))))
    by (rewrite <- (map_filter_proj triple), map_map; reflexivity).
  unfold triple. rewrite agg_segments. unfold groupby. rewrite map_map. cbn [fst snd].
  rewrite <- (map_filter_proj
                (fun k : string * string =>
                   (fst k, snd k,
                    sum_int64 (map Number_of_Pages
                      (filter (fun r => key_eqb pair_compare (segment_key r) k) df_range))))
                (fun t : string * string * Z => String.eqb (fst (fst t)) m)).
  cbn [fst]. rewrite map_map. cbn [snd].
  apply map_ext_in. intros k Hk. do 2 f_equal.
  apply filter_In in Hk. destruct Hk as [_ Hk]. apply String.eqb_eq in Hk.
  unfold month_rows. symmetry. apply filter_filter_implied.
  intros r Hr. apply (key_eqb_true pair_compare) in Hr.
  apply String.eqb_eq. rewrite <- Hk, <- Hr. reflexivity.
Qed.

Lemma month_segment_keys_cover (df_range : list row) (m : string) (r : row) :
  In r (month_rows df_range m) ->
  In (segment_key r)
     (filter (fun k : string * string => String.eqb (fst k) m)
             (group_keys pair_compare (map segment_key df_range))).
Proof.
  unfold month_rows. intros Hr. apply filter_In in Hr.
  destruct Hr as [Hin Hm]. apply filter_In. split; [|exact Hm].
  apply (group_keys_In pair_compare). now apply in_map.
Qed.

(** The page counts of a month's segments add up, modulo the int64
    wrap-around, to the page counts of the month's rows. *)
Lemma month_segments_pages (df_range : list row) (m : string) :
  int64 (zsum (map pages (month_segments df_range m)))
  = int64 (zsum (map Number_of_Pages (month_rows df_range m))).
Proof.
  rewrite month_segments_pages_list.
  rewrite (map_ext _ (fun k => int64 (zsum (map Number_of_Pages
             (filter (fun r => key_eqb pair_compare (segment_key r) k)
                     (month_rows df_range m))))))
    by (intros k; apply sum_int64_zsum).
  rewrite (int64_zsum_map (fun k => zsum (map Number_of_Pages
             (filter (fun r => key_eqb pair_compare (segment_key r) k)
                     (month_rows df_range m))))).
  f_equal. apply (zsum_by_key pair_compare).
  - apply NoDup_filter, (group_keys_NoDup pair_compare).
  - apply month_segment_keys_cover.
Qed.

Lemma zsum_filter_bounds (p : row -> bool) (df_range : list row) :
  (forall r, In r df_range -> 0 <= Number_of_Pages r) ->
  0 <= zsum (map Number_of_Pages (filter p df_range))
       <= zsum (map Number_of_Pages df_range).
Proof.
  induction df_range as [|r l IH]; intros Hpos; cbn; [lia|].
  assert (Hr : 0 <= Number_of_Pages r) by (apply Hpos; now left).
  assert (Hl : forall r', In r' l -> 0 <= Number_of_Pages r')
    by (intros r' Hr'; apply Hpos; now right).
  specialize (IH Hl). destruct (p r); cbn; lia.
Qed.

Lemma sum_int64_filter_exact (p : row -> bool) (df_range : list row) :
  pages_fit df_range ->
  sum_int64 (map Number_of_Pages (filter p df_range))
  = zsum (map Number_of_Pages (filter p df_range)).
Proof.
  intros [Hpos Hfit]. rewrite sum_int64_zsum. apply int64_small.
  pose proof (zsum_filter_bounds p df_range Hpos).
  assert (0 < 2 ^ 63) by (apply Z.pow_pos_nonneg; lia). lia.
Qed.

Lemma pages_fit_filter (p : row -> bool) (df_range : list row) :
  pages_fit df_range -> pages_fit (filter p df_range).
Proof.
  intros [Hpos Hfit]. split.
  - intros r Hr. apply filter_In in Hr. now apply Hpos.
  - pose proof (zsum_filter_bounds p df_range Hpos). lia.
Qed.

(** Without wrap-around the segments of a month add up exactly. *)
Lemma month_segments_pages_exact (df_range : list row) (m : string) :
  pages_fit df_range ->
  zsum (map pages (month_segments df_range m))
  = zsum (map Number_of_Pages (month_rows df_range m)).
Proof.
  intros Hfit. rewrite month_segments_pages_list.
  rewrite (map_ext _ (fun k => zsum (map Number_of_Pages
             (filter (fun r => key_eqb pair_compare (segment_key r) k)
                     (month_rows df_range m))))).
  - apply (zsum_by_key pair_compare).
    + apply NoDup_filter, (group_keys_NoDup pair_compare).
    + apply month_segment_keys_cover.
  - intros k. apply sum_int64_filter_exact. now apply pages_fit_filter.
Qed.

Lemma NoDup_key_inj {A K : Type} (key : A -> K) (l : list A) (a b : A) :
  NoDup (map key l) -> In a l -> In b l -> key a = key b -> a = b.
Proof.
  induction l as [|x l IH]; intros Hnd Ha Hb Hk; [destruct Ha|].
  cbn [map] in Hnd. apply NoDup_cons_iff in Hnd. destruct Hnd as [Hx Hnd].
  destruct Ha as [-> | Ha], Hb as [-> | Hb]; auto.
  - exfalso. apply Hx. rewrite Hk. now apply in_map.
  - exfalso. apply Hx. rewrite <- Hk. now apply in_map.
Qed.

(** What holds of the heights: every month of a range has its row in
    [month_totals]; each of its segments divides its own page sum by the
    month's, and the page sums of the segments add up to the month's (always
    modulo 2^64, exactly when no sum wraps). *)
Lemma month_segments_add_up (df_range : list row) (m : string) :
  In m (map Month_Read df_range) ->
  exists mt,
    In mt (month_totals df_range) /\ mt_Month_Read mt = m
    /\ Forall (fun a => a_month_pages a = month_pages mt
                        /\ height a = (Py.float_of_Z (pages a)
                                       / Py.float_of_Z (month_pages mt))%float)
              (month_segments df_range m)
    /\ int64 (zsum (map pages (month_segments df_range m))) = month_pages mt
    /\ (pages_fit df_range ->
        zsum (map pages (month_segments df_range m)) = month_pages mt).
Proof.
  intros Hm. destruct (month_totals_has df_range m Hm) as (mt & Hin & Hmt).
  exists mt. split; [exact Hin|]. split; [exact Hmt|].
  destruct (month_totals_row df_range mt Hin) as [_ Hpages]. rewrite Hmt in Hpages.
  split; [|split].
  - apply Forall_forall. intros a Ha. unfold month_segments in Ha.
    apply filter_In in Ha. destruct Ha as [Ha Hma]. apply String.eqb_eq in Hma.
    destruct (agg_row_month df_range a Ha) as (mt' & Hin' & Hm' & Hp & _ & _ & Hh).
    assert (mt' = mt).
    { apply (NoDup_key_inj mt_Month_Read (month_totals df_range)); auto.
      - apply month_totals_NoDup.
      - congruence. }
    subst mt'. split; assumption.
  - now rewrite month_segments_pages.
  - intros Hfit. rewrite month_segments_pages_exact by exact Hfit.
    rewrite Hpages. symmetry. apply int64_small.
    destruct Hfit as [Hpos Hlt].
    pose proof (zsum_filter_bounds (fun r => String.eqb (Month_Read r) m) df_range Hpos).
    unfold month_rows.
    assert (0 < 2 ^ 63) by (apply Z.pow_pos_nonneg; lia). lia.
Qed.

(** The same for the widths: each month's width divides its page sum by
    the grand total, and the month sums add up to the grand total. *)
Lemma month_pages_add_up (df_range : list row) :
  Forall (fun mt => width_prop mt
                    = (Py.float_of_Z (month_pages mt)
                       / Py.float_of_Z (grand_total_pages df_range))%float)
         (month_totals df_range)
  /\ int64 (zsum (map month_pages (month_totals df_range)))
     = grand_total_pages df_range
  /\ grand_total_pages df_range = int64 (zsum (map Number_of_Pages df_range))
  /\ (pages_fit df_range ->
      zsum (map month_pages (month_totals df_range)) = grand_total_pages df_range).
Proof.
  destruct (month_totals_columns df_range) as [Hcols Hw].
  assert (Hpages : map month_pages (month_totals df_range)
                   = map (fun t : string * Z * date => snd (fst t))
                         (month_table df_range)).
  { rewrite <- Hcols, map_map. reflexivity. }
  split; [|split; [|split]].
  - apply Forall_forall. intros mt Hin.
    assert (Hpair : In (width_prop mt, month_pages mt)
                       (combine (map width_prop (month_totals df_range))
                                (map month_pages (month_totals df_range)))).
    { clear -Hin. induction (month_totals df_range) as [|x l IH]; [destruct Hin|].
      destruct Hin as [-> | Hin]; cbn; [now left | right; auto]. }
    rewrite Hw, Hpages in Hpair. clear -Hpair.
    induction (month_table df_range) as [|t l IH]; [destruct Hpair|].
    destruct Hpair as [H | H]; [|auto].
    injection H as Hwd Hmp. now rewrite <- Hwd, <- Hmp.
  - rewrite Hpages. unfold grand_total_pages. now rewrite sum_int64_zsum.
  - apply grand_total_pages_sum.
  - intros Hfit. rewrite grand_total_pages_sum.
    rewrite int64_small.
    2:{ destruct Hfit as [Hpos Hlt].
        pose proof (zsum_filter_bounds (fun _ => true) df_range Hpos) as Hb.
        rewrite filter_true in Hb.
        assert (0 < 2 ^ 63) by (apply Z.pow_pos_nonneg; lia). lia. }
    rewrite Hpages, month_table_groups.
    rewrite (zsum_perm _ _ (Permutation_map _ (sort_values_perm _ _))).
    rewrite map_map. unfold month_row. cbn [fst snd].
    rewrite <- (groupby_sums String.compare Month_Read Number_of_Pages df_range).
    f_equal. apply map_ext_in. intros g Hg.
    unfold groupby in Hg. apply in_map_iff in Hg. destruct Hg as (k & <- & _).
    cbn [snd]. now apply sum_int64_filter_exact.
Qed.

(** ** Zero totals: the divisions the guard does not cover *)

Lemma zsum_zero_filter (p : row -> bool) (df_range : list row) :
  (forall r, In r df_range -> 0 <= Number_of_Pages r) ->
  zsum (map Number_of_Pages df_range) = 0 ->
  sum_int64 (map Number_of_Pages (filter p df_range)) = 0.
Proof.
  intros Hpos Hz. rewrite sum_int64_zsum.
  pose proof (zsum_filter_bounds p df_range Hpos).
  replace (zsum (map Number_of_Pages (filter p df_range))) with 0 by lia.
  reflexivity.
Qed.

Lemma add_nan_r (x : float) : (x + nan)%float = nan.
Proof.
  apply Prim2SF_inj. rewrite add_spec.
  change (Prim2SF nan) with S754_nan.
  now destruct (Prim2SF x).
Qed.

(** Whenever the rows of a month have no page at all, every segment of
    that month gets the height NaN. *)
Lemma zero_month_heights_nan (df_range : list row) (m : string) :
  (forall r, In r df_range -> 0 <= Number_of_Pages r) ->
  In m (map Month_Read df_range) ->
  zsum (map Number_of_Pages (month_rows df_range m)) = 0 ->
  month_heights df_range m <> []
  /\ Forall (fun h => h = nan) (month_heights df_range m).
Proof.
  intros Hpos Hm Hz.
  assert (Hpos_m : forall r, In r (month_rows df_range m) -> 0 <= Number_of_Pages r).
  { intros r Hr. apply filter_In in Hr. now apply Hpos. }
  assert (Hpages : Forall (fun p => p = 0) (map pages (month_segments df_range m))).
  { rewrite month_segments_pages_list. apply Forall_forall. intros p Hp.
    apply in_map_iff in Hp. destruct Hp as (k & <- & _).
    now apply zsum_zero_filter. }
  destruct (month_segments_add_up df_range m Hm) as (mt & Hin & Hmt & Hall & _).
  destruct (month_totals_row df_range mt Hin) as [_ Hmp].
  rewrite Hmt, Hz in Hmp. change (int64 0) with 0 in Hmp.
  unfold month_heights. fold (month_segments df_range m). split.
  - apply in_map_iff in Hm. destruct Hm as (r & Hr & Hrin).
    assert (Hrow : In r (month_rows df_range m)).
    { apply filter_In. split; [exact Hrin|]. now apply String.eqb_eq. }
    apply month_segment_keys_cover in Hrow.
    intros Hnil. apply map_eq_nil in Hnil.
    pose proof (month_segments_pages_list df_range m) as Hlist.
    rewrite Hnil in Hlist. cbn in Hlist. symmetry in Hlist.
    apply map_eq_nil in Hlist. rewrite Hlist in Hrow. exact Hrow.
  - apply Forall_forall. intros h Hh. apply in_map_iff in Hh.
    destruct Hh as (a & <- & Ha).
    rewrite Forall_forall in Hall, Hpages.
    destruct (Hall a Ha) as [_ ->].
    rewrite (Hpages (pages a) (in_map pages _ a Ha)), Hmp. reflexivity.
Qed.

(** Whenever a range is not empty but holds no page at all, every width
    is NaN. *)
Lemma zero_total_widths_nan (df_range : list row) :
  df_range <> [] ->
  (forall r, In r df_range -> 0 <= Number_of_Pages r) ->
  zsum (map Number_of_Pages df_range) = 0 ->
  month_totals df_range <> []
  /\ Forall (fun mt => width_prop mt = nan) (month_totals df_range).
Proof.
  intros Hne Hpos Hz. split.
  - destruct df_range as [|r l]; [congruence|].
    destruct (month_totals_has (r :: l) (Month_Read r) (or_introl eq_refl))
      as (mt & Hin & _).
    intros Hnil. rewrite Hnil in Hin. exact Hin.
  - destruct (month_pages_add_up df_range) as (Hw & _ & Hg & _).
    rewrite Hz in Hg. change (int64 0) with 0 in Hg.
    apply Forall_forall. intros mt Hin.
    rewrite Forall_forall in Hw. rewrite (Hw mt Hin), Hg.
    destruct (month_totals_row df_range mt Hin) as [_ ->].
    unfold month_rows. rewrite <- sum_int64_zsum, zsum_zero_filter by assumption.
    reflexivity.
Qed.

(** ** The x positions chain *)

(** The position columns of [month_totals], as the code computes them
    from the width column. *)
Lemma month_totals_positions (df_range : list row) :
  let w := map width_prop (month_totals df_range) in
  let s := shift (cumsum w) in
  let e := map (fun sw => (fst sw + snd sw)%float) (combine s w) in
  map x_start (month_totals df_range) = s
  /\ map x_end (month_totals df_range) = e
  /\ map x_center (month_totals df_range)
     = map (fun se => ((fst se + snd se) / 2)%float) (combine s e).
Proof.
  destruct (month_totals_columns df_range) as [_ Hw]. cbn zeta. rewrite Hw.
  unfold month_totals.
  set (table := month_table df_range).
  set (w := map _ table).
  set (s := shift (cumsum w)).
  set (e := map _ (combine s w)).
  set (c := map _ (combine s e)).
  assert (Hlw : List.length w = List.length table) by (unfold w; apply length_map).
  assert (Hls : List.length s = List.length table)
    by (unfold s; now rewrite length_shift, length_cumsum).
  assert (Hle : List.length e = List.length table).
  { unfold e. rewrite length_map, length_combine_same; congruence. }
  assert (Hlc : List.length c = List.length table).
  { unfold c. rewrite length_map, length_combine_same; congruence. }
  assert (H3 : List.length (combine e c) = List.length table)
    by (rewrite length_combine_same; congruence).
  assert (H2 : List.length (combine s (combine e c)) = List.length table)
    by (rewrite length_combine_same; congruence).
  assert (H1 : List.length (combine w (combine s (combine e c))) = List.length table)
    by (rewrite length_combine_same; congruence).
  repeat split; rewrite map_map.
  - rewrite (map_ext _ (fun x => fst (snd (snd x)))).
    + rewrite (combine_map_snd (fun y => fst (snd y))) by congruence.
      rewrite (combine_map_snd (fun y => fst y)) by congruence.
      rewrite (combine_map_fst (fun y => y)), map_id; congruence.
    + intros [[[k p] d] [w0 [s0 [e0 c0]]]]. reflexivity.
  - rewrite (map_ext _ (fun x => fst (snd (snd (snd x))))).
    + rewrite (combine_map_snd (fun y => fst (snd (snd y)))) by congruence.
      rewrite (combine_map_snd (fun y => fst (snd y))) by congruence.
      rewrite (combine_map_snd (fun y => fst y)) by congruence.
      rewrite (combine_map_fst (fun y => y)), map_id; congruence.
    + intros [[[k p] d] [w0 [s0 [e0 c0]]]]. reflexivity.
  - rewrite (map_ext _ (fun x => snd (snd (snd (snd x))))).
    + rewrite (combine_map_snd (fun y => snd (snd (snd y)))) by congruence.
      rewrite (combine_map_snd (fun y => snd (snd y))) by congruence.
      rewrite (combine_map_snd (fun y => snd y)) by congruence.
      rewrite (combine_map_snd (fun y => y)), map_id; congruence.
    + intros [[[k p] d] [w0 [s0 [e0 c0]]]]. reflexivity.
Qed.

(** The first column starts at 0. *)
Lemma first_x_start_zero (df_range : list row) (mt : month_total) :
  hd_error (month_totals df_range) = Some mt -> x_start mt = 0%float.
Proof.
  intros Hhd.
  destruct (month_totals_positions df_range) as (Hs & _).
  destruct (month_totals df_range) as [|mt0 l]; [discriminate|].
  injection Hhd as ->. cbn in Hs. now injection Hs.
Qed.

Lemma cumsum_from_ends (acc : float) (ws : list float) :
  Forall (fun w => is_nan w = false) ws ->
  map (fun sw => (fst sw + snd sw)%float)
      (combine (removelast (acc :: cumsum_from acc ws)) ws)
  = cumsum_from acc ws.
Proof.
  intros Hall. revert acc. induction Hall as [|w ws Hw _ IH]; intros acc.
  - reflexivity.
  - cbn [cumsum_from]. rewrite Hw.
    change (removelast (acc :: (acc + w)%float :: cumsum_from (acc + w) ws))
      with (acc :: removelast ((acc + w)%float :: cumsum_from (acc + w) ws)).
    cbn [combine map fst snd]. now rewrite IH.
Qed.

Lemma add_zero_l (w : float) : w <> neg_zero -> (0 + w)%float = w.
Proof.
  intros Hw. apply Prim2SF_inj. rewrite add_spec.
  change (Prim2SF 0) with (S754_zero false).
  destruct (Prim2SF w) as [[|] | | |] eqn:E; try reflexivity.
  exfalso. apply Hw. apply Prim2SF_inj. rewrite E. reflexivity.
Qed.

(** When no width is NaN and the first one is not -0.0, the columns tile
    the axis from 0 on: every [x_start] after the first is the [x_end] of
    the month before. *)
Lemma x_positions_chain (df_range : list row) (mt : month_total)
    (rest : list month_total) :
  month_totals df_range = mt :: rest ->
  Forall (fun m => is_nan (width_prop m) = false) (month_totals df_range) ->
  width_prop mt <> neg_zero ->
  map x_start (month_totals df_range)
  = 0%float :: removelast (map x_end (month_totals df_range)).
Proof.
  intros Hmt Hall Hfirst.
  destruct (month_totals_positions df_range) as (Hs & He & _). cbn zeta in Hs, He.
  rewrite Hs, He. rewrite Hmt in Hall |- *. cbn [map].
  apply Forall_cons_iff in Hall. destruct Hall as [Hw Hrest].
  assert (Hws : Forall (fun w => is_nan w = false) (map width_prop rest)).
  { apply Forall_forall. intros w Hin. apply in_map_iff in Hin.
    destruct Hin as (m & <- & Hm). rewrite Forall_forall in Hrest. auto. }
  unfold cumsum. rewrite Hw. unfold shift.
  cbn [combine map fst snd].
  rewrite (cumsum_from_ends (width_prop mt) (map width_prop rest) Hws).
  now rewrite (add_zero_l (width_prop mt) Hfirst).
Qed.

(** With every width NaN, every [x_end] is NaN as well. *)
Lemma zero_total_x_end_nan (df_range : list row) :
  (forall r, In r df_range -> 0 <= Number_of_Pages r) ->
  zsum (map Number_of_Pages df_range) = 0 ->
  df_range <> [] ->
  Forall (fun mt => x_end mt = nan) (month_totals df_range).
Proof.
  intros Hpos Hz Hne.
  destruct (zero_total_widths_nan df_range Hne Hpos Hz) as [_ Hw].
  destruct (month_totals_positions df_range) as (_ & He & _). cbn zeta in He.
  apply Forall_forall. intros mt Hin.
  apply (in_map x_end) in Hin. rewrite He in Hin.
  apply in_map_iff in Hin. destruct Hin as ([s w] & <- & Hsw). cbn [fst snd].
  apply in_combine_r, in_map_iff in Hsw. destruct Hsw as (mt' & <- & Hin').
  rewrite Forall_forall in Hw. rewrite (Hw mt' Hin'). apply add_nan_r.
Qed.

(** ** Layout: heights and widths *)

(** Scenario A of the specification: one month of 400 pages split 300/100. *)
Example scenario_A_layout :
  let df_range := page_filter (filtered scenario_A) 0 1000 in
  map (fun a => (a_Rating_Label a, pages a, height a)) (agg df_range)
  = [("3⭐", 100, 0.25%float); ("5⭐", 300, 0.75%float)]
  /\ map width_prop (month_totals df_range) = [1%float]
  /\ close_to_one (sum_float (month_heights df_range "2025-01")) = true.
Proof. repeat split; vm_compute; reflexivity. Qed.

(** Scenario B: months of 400 and 100 pages, in date order; the centers are
    the doubles written 0.4 and 0.9. *)
Example scenario_B_layout :
  let months := month_totals (page_filter (filtered scenario_B) 0 1000) in
  map mt_Month_Read months = ["2025-01"; "2025-02"]
  /\ map month_pages months = [400; 100]
  /\ map x_start months = [0%float; nth 0 (map x_end months) nan]
  /\ map x_end months = [nth 0 (map width_prop months) nan; 1%float]
  /\ close_to_one (sum_float (map width_prop months)) = true
  /\ map x_center months = [0x1.999999999999ap-2%float; 0x1.ccccccccccccdp-1%float].
Proof. repeat split; vm_compute; reflexivity. Qed.

(** C4 (the code departs from it): [zero_pages] has a January book of 0
    pages; on the full range [0, 300] the frame is not empty and January is
    present, yet its only segment has height 0/0 = NaN, so the heights of
    that month do not sum to 1 within 1e-9 (February's do). *)
Theorem zero_page_month_height_is_nan :
  let frame := filtered zero_pages in
  let df_range := page_filter frame 0 300 in
  min_pages frame = Some 0 /\ max_pages frame = Some 300
  /\ map Month_Read df_range = ["2025-02"; "2025-01"]
  /\ map (fun a => (a_Month_Read a, pages a, a_month_pages a)) (agg df_range)
     = [("2025-01", 0, 0); ("2025-02", 300, 300)]
  /\ month_heights df_range "2025-01" = [nan]
  /\ close_to_one (sum_float (month_heights df_range "2025-01")) = false
  /\ close_to_one (sum_float (month_heights df_range "2025-02")) = true.
Proof. repeat split; vm_compute; reflexivity. Qed.


(** * Further properties of the handlers and of the tables behind the chart *)

(** ** Table handler *)

Lemma to_records_In (dff : list row) (t : table_row) :
  In t (to_records dff) ->
  exists r, In r dff /\ t_Month_Read t = Month_Read r /\ t_Title t = Title r
            /\ t_Author t = Author r /\ t_My_Rating t = My_Rating r
            /\ t_Number_of_Pages t = Number_of_Pages r.
Proof.
  unfold to_records. intros H. apply in_map_iff in H.
  destruct H as (r & <- & Hr). exists r. cbn. repeat split; auto.
Qed.

Lemma update_table_view (frame : list row) (clickData : option click_data)
    (page_range : Z * Z) (stored : option selection) :
  fst (update_table frame clickData page_range stored)
  = effective_rows frame page_range
      (snd (update_table frame clickData page_range stored)).
Proof.
  destruct page_range as [low high]. unfold update_table, effective_rows.
  destruct clickData as [[[[|pt pts]|]]|]; try reflexivity.
  cbn [points].
  match goal with |- context [stored_eqb ?a ?b] => destruct (stored_eqb a b) end;
    reflexivity.
Qed.

(** X1: whatever the click and the stored selection, every row the table
    handler returns is a book of the frame whose page count lies in the
    range, and when it returns a selection every row is of the selected
    month. *)
Theorem table_rows_come_from_range (frame : list row)
    (clickData : option click_data) (low high : Z) (stored : option selection)
    (t : table_row) :
  In t (fst (update_table frame clickData (low, high) stored)) ->
  (exists r, In r frame /\ t_Title t = Title r /\ t_Author t = Author r
             /\ t_Number_of_Pages t = Number_of_Pages r
             /\ low <= t_Number_of_Pages t <= high)
  /\ (forall s, snd (update_table frame clickData (low, high) stored) = Some s ->
                t_Month_Read t = sel_month s).
Proof.
  rewrite update_table_view. unfold effective_rows.
  destruct (snd (update_table frame clickData (low, high) stored)) as [s|];
    intros Ht; apply to_records_In in Ht;
    destruct Ht as (r & Hr & Hm & Hti & Ha & _ & Hp).
  - unfold segment_rows in Hr. apply filter_In in Hr. destruct Hr as [Hr Hsel].
    apply andb_true_iff in Hsel. destruct Hsel as [Hmonth _].
    apply String.eqb_eq in Hmonth.
    apply page_filter_In in Hr. destruct Hr as [Hin Hrange]. split.
    + exists r. rewrite Hp. auto.
    + intros s' [= <-]. congruence.
  - apply page_filter_In in Hr. destruct Hr as [Hin Hrange]. split.
    + exists r. rewrite Hp. auto.
    + discriminate.
Qed.

Lemma table_rows_come_from_range_witness :
  In {| t_Month_Read := "2025-01"; t_Title := "Dune"; t_Author := "Herbert";
        t_My_Rating := 5; t_Number_of_Pages := 300 |}
     (fst (update_table (filtered scenario_A) (Some click_dune) (100, 300) None))
  /\ 100 <= 300 <= 300.
Proof.
  assert (H : In {| t_Month_Read := "2025-01"; t_Title := "Dune";
                    t_Author := "Herbert"; t_My_Rating := 5;
                    t_Number_of_Pages := 300 |}
                 (fst (update_table (filtered scenario_A) (Some click_dune)
                         (100, 300) None))) by (now left).
  split; [exact H|].
  destruct (table_rows_come_from_range _ _ _ _ _ _ H) as [(r & _ & _ & _ & _ & Hr) _].
  exact Hr.
Defined.

(** X2: the store the handler returns is empty or holds the pair of the
    first clicked point, and in that case the pair differs from the stored
    one; so no call hands back the selection it was given, and a click
    datum without points always empties the store. *)
Theorem store_is_empty_or_newly_clicked (frame : list row)
    (clickData : option click_data) (page_range : Z * Z)
    (stored : option selection) :
  let out := snd (update_table frame clickData page_range stored) in
  (out = None
   \/ exists pt pts, clickData = Some {| points := Some (pt :: pts) |}
                     /\ out = Some (selection_of pt)
                     /\ stored <> Some (selection_of pt))
  /\ (forall s, stored = Some s -> out <> Some s)
  /\ (clickData = None \/ clickData = Some {| points := None |}
      \/ clickData = Some {| points := Some [] |} -> out = None).
Proof.
  destruct page_range as [low high]. cbn zeta. split; [|split].
  - destruct clickData as [[[[|pt pts]|]]|]; cbn; auto.
    destruct (stored_eqb stored _) eqn:E; cbn; auto.
    right. exists pt, pts. repeat split.
    intros ->. cbn in E. fold (selection_of pt) in E.
    now rewrite selection_eqb_refl in E.
  - intros s ->. apply update_table_never_keeps.
  - intros [-> | [-> | ->]]; reflexivity.
Qed.

(** X3: with (m, r) stored, a click on a different segment (m2, r2) goes
    straight to (m2, r2): the store takes the new pair and the table shows
    its rows within the range. *)
Theorem click_other_segment_switches (frame : list row) (pt : point)
    (pts : list point) (low high : Z) (s : selection) :
  s <> selection_of pt ->
  update_table frame (Some {| points := Some (pt :: pts) |}) (low, high) (Some s)
  = (to_records (segment_rows (page_filter frame low high)
                   (cd_Month_Read (customdata pt)) (cd_Rating_Label (customdata pt))),
     Some (selection_of pt)).
Proof.
  intros Hs. rewrite update_table_click. cbn [stored_eqb].
  destruct (selection_eqb s (selection_of pt)) eqn:E; [|reflexivity].
  apply selection_eqb_eq in E. contradiction.
Qed.

Lemma click_other_segment_switches_witness :
  {| sel_month := "2025-01"; sel_rating := "3⭐" |}
  <> selection_of {| customdata :=
       {| cd_Month_Read := "2025-01"; cd_pages := 300; cd_month_pages := 400;
          cd_Books := "Dune (Herbert)"; cd_Rating_Label := "5⭐" |} |}
  /\ map t_Title
       (fst (update_table (filtered scenario_A) (Some click_dune) (0, 1000)
               (Some {| sel_month := "2025-01"; sel_rating := "3⭐" |})))
     = ["Dune"].
Proof.
  assert (H : {| sel_month := "2025-01"; sel_rating := "3⭐" |}
              <> selection_of {| customdata :=
                   {| cd_Month_Read := "2025-01"; cd_pages := 300;
                      cd_month_pages := 400; cd_Books := "Dune (Herbert)";
                      cd_Rating_Label := "5⭐" |} |}) by discriminate.
  split; [exact H|].
  unfold click_dune.
  rewrite (click_other_segment_switches (filtered scenario_A) _ [] 0 1000 _ H).
  reflexivity.
Defined.

(** X4: the table on display always agrees with the store written in the
    same call: it is the range restricted to the stored pair, or the whole
    range when the store is empty; hence in every session the table is the
    view of the current range and store. *)
Theorem table_is_view_of_store (frame : list row) :
  (forall clickData page_range stored,
     fst (update_table frame clickData page_range stored)
     = effective_rows frame page_range
         (snd (update_table frame clickData page_range stored)))
  /\ (forall st, reachable frame st ->
        s_table st = effective_rows frame (s_page_range st) (s_selection_store st)).
Proof.
  split; [intros; apply update_table_view|].
  induction 1 as [st Hstart | st ev _ _].
  - unfold startup in Hstart.
    destruct (min_pages frame), (max_pages frame); try discriminate.
    injection Hstart as <-. reflexivity.
  - destruct ev as [cd | low high]; unfold fire;
      cbn [s_table s_page_range s_selection_store]; apply update_table_view.
Qed.

(** X5: in a session with a stored selection, one slider move empties the
    store and shows the whole new range, and a second slider move stores the
    same pair again and shows its rows within the second range. *)
Theorem slider_moves_toggle_selection (frame : list row) (st : session)
    (s : selection) (l1 h1 l2 h2 : Z) :
  reachable frame st ->
  s_selection_store st = Some s ->
  let st1 := fire frame st (RangeChanged l1 h1) in
  let st2 := fire frame st1 (RangeChanged l2 h2) in
  s_selection_store st1 = None
  /\ s_table st1 = to_records (page_filter frame l1 h1)
  /\ s_selection_store st2 = Some s
  /\ s_table st2 = to_records (segment_rows (page_filter frame l2 h2)
                                 (sel_month s) (sel_rating s)).
Proof.
  intros Hr Hs.
  destruct (reachable_store_follows_click frame st Hr s Hs) as (pt & pts & Hc & ->).
  cbn zeta. unfold fire. cbn [s_selection_store s_table s_clickData].
  rewrite Hc, Hs, !update_table_click. cbn [stored_eqb].
  rewrite selection_eqb_refl. cbn [fst snd stored_eqb]. repeat split.
Qed.

Lemma scenario_A_clicked_reachable :
  reachable (filtered scenario_A)
    (fire (filtered scenario_A) scenario_A_start (SegmentClicked click_dune)).
Proof.
  apply reach_fire, reach_startup. reflexivity.
Qed.

Lemma slider_moves_toggle_selection_witness :
  let frame := filtered scenario_A in
  let st := fire frame scenario_A_start (SegmentClicked click_dune) in
  reachable frame st
  /\ s_selection_store st = Some {| sel_month := "2025-01"; sel_rating := "5⭐" |}
  /\ s_selection_store (fire frame st (RangeChanged 100 200)) = None
  /\ s_selection_store (fire frame (fire frame st (RangeChanged 100 200))
                          (RangeChanged 100 300))
     = Some {| sel_month := "2025-01"; sel_rating := "5⭐" |}.
Proof.
  cbn zeta.
  assert (Hs : s_selection_store
                 (fire (filtered scenario_A) scenario_A_start (SegmentClicked click_dune))
               = Some {| sel_month := "2025-01"; sel_rating := "5⭐" |})
    by reflexivity.
  destruct (slider_moves_toggle_selection (filtered scenario_A) _ _ 100 200 100 300
              scenario_A_clicked_reachable Hs) as (H1 & _ & H2 & _).
  split; [exact scenario_A_clicked_reachable|].
  split; [exact Hs|]. split; [exact H1 | exact H2].
Defined.

(** ** Page load *)




(** ** Record filter *)

(** X7: page-range filters compose by intersecting their ranges, a range
    inside another keeps a subset of its rows, and the range filter commutes
    with the restriction to a segment. *)
Theorem page_filter_composes (frame : list row) (l1 h1 l2 h2 : Z) :
  page_filter (page_filter frame l1 h1) l2 h2
  = page_filter frame (Z.max l1 l2) (Z.min h1 h2)
  /\ (l2 <= l1 -> h1 <= h2 ->
      incl (page_filter frame l1 h1) (page_filter frame l2 h2))
  /\ (forall m r, segment_rows (page_filter frame l1 h1) m r
                  = page_filter (segment_rows frame m r) l1 h1).
Proof.
  split; [|split].
  - unfold page_filter. induction frame as [|x frame IH]; [reflexivity|].
    cbn [filter].
    destruct (between l1 h1 (Number_of_Pages x)) eqn:E1; cbn [filter];
      destruct (between l2 h2 (Number_of_Pages x)) eqn:E2;
      destruct (between (Z.max l1 l2) (Z.min h1 h2) (Number_of_Pages x)) eqn:E3;
      try (now rewrite IH); exfalso;
      repeat match goal with
             | H : between _ _ _ = true |- _ => apply between_iff in H
             | H : between _ _ _ = false |- _ =>
                 apply not_true_iff_false in H; rewrite between_iff in H
             end; lia.
  - intros Hl Hh r Hr. apply page_filter_In in Hr. apply page_filter_In.
    destruct Hr as [Hin Hr]. split; [exact Hin | lia].
  - intros m r. unfold segment_rows, page_filter.
    induction frame as [|x frame IH]; [reflexivity|]. cbn [filter].
    destruct (between l1 h1 (Number_of_Pages x)) eqn:E1;
      destruct (String.eqb (Month_Read x) m && String.eqb (Rating_Label x) r) eqn:E2;
      cbn [filter]; rewrite ?E1, ?E2; now rewrite IH.
Qed.

(** ** The frame built at import *)

Lemma star_suffix_not_unrated (s : string) : s ++ "⭐" <> "Unrated".
Proof.
  destruct s as [|c1 [|c2 [|c3 [|c4 [|c5 [|c6 [|c7 [|c8 s]]]]]]]];
    cbn; discriminate.
Qed.

Lemma rating_label_float_not_nan (x : float) :
  is_nan x = false ->
  exists s, rating_label_from_value (Py.PFloat x) = s ++ "⭐".
Proof.
  intros Hx. unfold rating_label_from_value, rating_label_try.
  cbn [Py.isna Py.float Py.bind]. rewrite Hx.
  destruct (Py.is_integer x) eqn:Hint.
  - destruct (is_integer_int x Hint) as [n ->]. cbn. eauto.
  - cbn. eauto.
Qed.

Lemma zero_to_nan_not_zero (rating : float) :
  (zero_to_nan rating =? 0)%float = false.
Proof.
  unfold zero_to_nan. destruct (rating =? 0)%float eqn:E; [reflexivity | exact E].
Qed.

Lemma filtered_In (df : list book) (r : row) :
  In r (filtered df) <-> exists b, In b df /\ filtered_row b = Some r.
Proof.
  unfold filtered. rewrite in_flat_map. split.
  - intros (b & Hb & Hr). exists b. split; [exact Hb|].
    destruct (filtered_row b) as [r'|]; [|destruct Hr].
    destruct Hr as [-> | []]. reflexivity.
  - intros (b & Hb & Hr). exists b. split; [exact Hb|]. rewrite Hr. now left.
Qed.

(** X8: every row of [filtered] comes from a book of the export that was
    added in 2025 and sits on the shelf "read" or "currently-reading"; its
    month key is derived from that date, its rating is never 0, and it is
    labelled "Unrated" exactly when its rating is NaN. *)
Theorem filtered_rows_invariant (df : list book) (r : row) :
  In r (filtered df) ->
  (exists b, In b df
             /\ raw_Date_Added b = Some (Date_Added r)
             /\ (raw_Exclusive_Shelf b = "read"
                 \/ raw_Exclusive_Shelf b = "currently-reading")
             /\ Title r = raw_Title b /\ Author r = raw_Author b
             /\ Number_of_Pages r = raw_Number_of_Pages b
             /\ My_Rating r = zero_to_nan (raw_My_Rating b))
  /\ year (Date_Added r) = 2025
  /\ Month_Read r = period_M (Date_Added r)
  /\ (My_Rating r =? 0)%float = false
  /\ (Rating_Label r = "Unrated" <-> is_nan (My_Rating r) = true).
Proof.
  intros Hr. apply filtered_In in Hr. destruct Hr as (b & Hb & Hrow).
  unfold filtered_row in Hrow.
  destruct (raw_Date_Added b) as [d|] eqn:Hd; [|discriminate].
  destruct (mask_2025 b && mask_shelf b) eqn:Hmask; [|discriminate].
  apply andb_true_iff in Hmask. destruct Hmask as [Hyear Hshelf].
  injection Hrow as <-. cbn [Date_Added Month_Read My_Rating Rating_Label
                             Title Author Number_of_Pages].
  unfold mask_2025 in Hyear. rewrite Hd in Hyear. apply Z.eqb_eq in Hyear.
  split; [|split; [|split; [|split]]].
  - exists b. repeat split; auto.
    unfold mask_shelf in Hshelf. cbn in Hshelf.
    rewrite orb_false_r in Hshelf. apply orb_true_iff in Hshelf.
    destruct Hshelf as [H | H]; apply String.eqb_eq in H; auto.
  - exact Hyear.
  - reflexivity.
  - apply zero_to_nan_not_zero.
  - split.
    + intros Hlabel.
      destruct (is_nan (zero_to_nan (raw_My_Rating b))) eqn:Hnan; [reflexivity|].
      destruct (rating_label_float_not_nan _ Hnan) as [s Hs].
      rewrite Hs in Hlabel. now apply star_suffix_not_unrated in Hlabel.
    + intros Hnan. unfold rating_label_from_value. cbn [Py.isna]. now rewrite Hnan.
Qed.

Lemma filtered_rows_invariant_witness :
  In {| Title := "Emma"; Author := "Austen";
        Date_Added := {| year := 2025; month := 1; day := 20 |};
        My_Rating := nan; Number_of_Pages := 400;
        Month_Read := "2025-01"; Rating_Label := "Unrated" |}
     (filtered scenario_B)
  /\ (nan =? 0)%float = false.
Proof.
  assert (H : In {| Title := "Emma"; Author := "Austen";
                    Date_Added := {| year := 2025; month := 1; day := 20 |};
                    My_Rating := nan; Number_of_Pages := 400;
                    Month_Read := "2025-01"; Rating_Label := "Unrated" |}
                 (filtered scenario_B)) by (right; now left).
  split; [exact H|].
  exact (proj1 (proj2 (proj2 (proj2 (filtered_rows_invariant _ _ H))))).
Defined.

(** ** Month columns *)

Lemma date_leb_iff (a b : date) :
  date_leb a b = true
  <-> year a < year b
      \/ (year a = year b
          /\ (month a < month b \/ (month a = month b /\ day a <= day b))).
Proof.
  unfold date_leb, date_compare.
  destruct (Z.compare_spec (year a) (year b));
    destruct (Z.compare_spec (month a) (month b));
    destruct (Z.compare_spec (day a) (day b));
    split; intros Hx; try reflexivity; try discriminate; lia.
Qed.

Lemma date_leb_total (a b : date) : date_leb a b = false -> date_leb b a = true.
Proof.
  intros H. apply not_true_iff_false in H. rewrite date_leb_iff in H.
  apply date_leb_iff. lia.
Qed.

Lemma date_leb_trans (a b c : date) :
  date_leb a b = true -> date_leb b c = true -> date_leb a c = true.
Proof.
  rewrite !date_leb_iff. lia.
Qed.

Lemma date_leb_refl (a : date) : date_leb a a = true.
Proof. apply date_leb_iff. lia. Qed.

Lemma fold_min_date (ds : list date) (d0 : date) :
  let m := fold_left (fun m d' => if date_leb m d' then m else d') ds d0 in
  (m = d0 \/ In m ds)
  /\ date_leb m d0 = true
  /\ forall x, In x ds -> date_leb m x = true.
Proof.
  cbn zeta. revert d0. induction ds as [|d ds IH]; intros d0; cbn [fold_left].
  - split; [now left|]. split; [apply date_leb_refl | intros x []].
  - destruct (date_leb d0 d) eqn:E.
    + destruct (IH d0) as (Hin & Hle & Hall). split; [|split].
      * destruct Hin as [-> | Hin]; [now left | right; now right].
      * exact Hle.
      * intros x [<- | Hx]; [exact (date_leb_trans _ _ _ Hle E) | auto].
    + destruct (IH d) as (Hin & Hle & Hall). split; [|split].
      * right. destruct Hin as [-> | Hin]; [now left | now right].
      * exact (date_leb_trans _ _ _ Hle (date_leb_total _ _ E)).
      * intros x [<- | Hx]; [exact Hle | auto].
Qed.

Lemma min_date_spec (col : list date) (d : date) :
  min_date col = Some d ->
  In d col /\ forall x, In x col -> date_leb d x = true.
Proof.
  destruct col as [|d0 ds]; [discriminate|]. cbn [min_date]. intros [= <-].
  destruct (fold_min_date ds d0) as (Hin & Hle & Hall). split.
  - destruct Hin as [-> | Hin]; [now left | now right].
  - intros x [<- | Hx]; auto.
Qed.

Lemma month_rows_key_filter (df_range : list row) (m : string) :
  filter (fun r => key_eqb String.compare (Month_Read r) m) df_range
  = month_rows df_range m.
Proof.
  unfold month_rows. apply filter_ext. intros r.
  destruct (String.eqb_spec (Month_Read r) m) as [E | E].
  - now apply (key_eqb_true String.compare).
  - now apply (key_eqb_false String.compare).
Qed.

(** X9: a row of [month_totals] stands for a month that has books in the
    range: its page count is the int64 sum of their pages, and its first
    date is the date of one of them and not later than any of them. *)
Theorem month_total_describes_its_books (df_range : list row) (mt : month_total) :
  In mt (month_totals df_range) ->
  let books := month_rows df_range (mt_Month_Read mt) in
  books <> []
  /\ month_pages mt = sum_int64 (map Number_of_Pages books)
  /\ (exists r, In r books /\ Date_Added r = first_date mt)
  /\ (forall r, In r books -> date_leb (first_date mt) (Date_Added r) = true).
Proof.
  intros Hin. cbn zeta.
  destruct (month_totals_columns df_range) as [Hcols _].
  assert (Ht : In (mt_Month_Read mt, month_pages mt, first_date mt)
                  (month_table df_range)).
  { rewrite <- Hcols.
    apply (in_map (fun mt => (mt_Month_Read mt, month_pages mt, first_date mt))).
    exact Hin. }
  rewrite month_table_groups in Ht.
  apply (Permutation_in _ (sort_values_perm _ _)) in Ht.
  apply in_map_iff in Ht. destruct Ht as (g & Hg & Hgin).
  pose proof (groupby_nonempty String.compare _ _ _ Hgin) as Hne.
  unfold groupby in Hgin. apply in_map_iff in Hgin.
  destruct Hgin as (k & <- & Hk).
  unfold month_row, group_first_date in Hg. cbn [fst snd] in Hg, Hne.
  rewrite month_rows_key_filter in Hg, Hne.
  injection Hg as Hm Hp Hd. subst k.
  split; [exact Hne|]. split; [now rewrite Hp|].
  destruct (min_date (map Date_Added (month_rows df_range (mt_Month_Read mt))))
    as [d|] eqn:Hmin.
  - subst d. destruct (min_date_spec _ _ Hmin) as [Hmem Hall]. split.
    + apply in_map_iff in Hmem. destruct Hmem as (r & Hr & Hrin). now exists r.
    + intros r Hr. apply Hall. now apply in_map.
  - destruct (month_rows df_range (mt_Month_Read mt)); [congruence | discriminate].
Qed.

Lemma month_total_describes_its_books_witness :
  let df_range := page_filter (filtered scenario_B) 0 1000 in
  let mt := {| mt_Month_Read := "2025-01"; month_pages := 400;
               first_date := {| year := 2025; month := 1; day := 20 |};
               width_prop := 0x1.999999999999ap-1; x_start := 0;
               x_end := 0x1.999999999999ap-1; x_center := 0x1.999999999999ap-2 |} in
  In mt (month_totals df_range)
  /\ month_pages mt = sum_int64 (map Number_of_Pages (month_rows df_range "2025-01")).
Proof.
  cbn zeta.
  match goal with |- In ?mt ?l /\ _ => assert (H : In mt l) by (now left) end.
  split; [exact H|].
  exact (proj1 (proj2 (month_total_describes_its_books _ _ H))).
Defined.

Lemma insert_sorted_In {R : Type} (leb : R -> R -> bool) (r x : R) (l : list R) :
  In x (insert_sorted leb r l) <-> x = r \/ In x l.
Proof.
  induction l as [|y l IH]; cbn.
  - intuition.
  - destruct (leb r y); cbn; [intuition|]. rewrite IH. intuition.
Qed.

Lemma insert_sorted_Sorted {R : Type} (leb : R -> R -> bool) (r : R) (l : list R) :
  (forall a b, leb a b = false -> leb b a = true) ->
  Sorted (fun a b => leb a b = true) l ->
  Sorted (fun a b => leb a b = true) (insert_sorted leb r l).
Proof.
  intros Htotal. induction 1 as [|y l Hs IH Hhd]; cbn.
  - repeat constructor.
  - destruct (leb r y) eqn:E.
    + constructor; [now constructor | now constructor].
    + constructor; [exact IH|].
      destruct l as [|z l]; cbn.
      * constructor. now apply Htotal.
      * destruct (leb r z); constructor; [now apply Htotal|].
        now inversion Hhd.
Qed.

Lemma sort_values_Sorted {R : Type} (leb : R -> R -> bool) (l : list R) :
  (forall a b, leb a b = false -> leb b a = true) ->
  Sorted (fun a b => leb a b = true) (sort_values leb l).
Proof.
  intros Htotal. induction l as [|x l IH]; cbn; [constructor|].
  now apply insert_sorted_Sorted.
Qed.

Lemma Sorted_map_inv {A B : Type} (f : A -> B) (R : B -> B -> Prop) (l : list A) :
  Sorted R (map f l) -> Sorted (fun a b => R (f a) (f b)) l.
Proof.
  induction l as [|x l IH]; cbn; intros Hs; [constructor|].
  inversion Hs as [|y l' Hs' Hhd]; subst. constructor; [auto|].
  destruct l; cbn in *; constructor. now inversion Hhd.
Qed.

(** X10: [month_totals] has exactly one row for every month that occurs in
    the range and no other row, and its rows are in ascending order of
    first date. *)
Theorem month_totals_one_row_per_month_by_date (df_range : list row) :
  NoDup (map mt_Month_Read (month_totals df_range))
  /\ (forall m, In m (map mt_Month_Read (month_totals df_range))
                <-> In m (map Month_Read df_range))
  /\ Sorted (fun a b => date_leb (first_date a) (first_date b) = true)
            (month_totals df_range).
Proof.
  split; [apply month_totals_NoDup|]. split.
  - intros m. split; intros H.
    + apply (Permutation_in _ (month_totals_months df_range)) in H.
      exact (proj1 (group_keys_In String.compare _ _) H).
    + apply (proj2 (group_keys_In String.compare _ _)) in H.
      exact (Permutation_in _ (Permutation_sym (month_totals_months df_range)) H).
  - destruct (month_totals_columns df_range) as [Hcols _].
    apply (Sorted_map_inv
             (fun mt => (mt_Month_Read mt, month_pages mt, first_date mt))
             (fun a b : string * Z * date => date_leb (snd a) (snd b) = true)).
    rewrite Hcols. unfold month_table.
    apply (sort_values_Sorted (fun a b : string * Z * date => date_leb (snd a) (snd b))).
    intros a b. apply date_leb_total.
Qed.

Lemma combine_map_same {A B C : Type} (f : A -> B) (g : A -> C) (l : list A) :
  combine (map f l) (map g l) = map (fun x => (f x, g x)) l.
Proof.
  induction l as [|x l IH]; cbn; [reflexivity | now rewrite IH].
Qed.

Lemma month_totals_rowwise (df_range : list row) (mt : month_total) :
  In mt (month_totals df_range) ->
  x_end mt = (x_start mt + width_prop mt)%float
  /\ x_center mt = ((x_start mt + x_end mt) / 2)%float.
Proof.
  intros Hin.
  destruct (month_totals_positions df_range) as (Hs & He & Hc). cbn zeta in Hs, He, Hc.
  rewrite <- Hs in He. rewrite <- Hs, <- He in Hc.
  rewrite combine_map_same, map_map in He, Hc. cbn [fst snd] in He, Hc.
  split.
  - exact (proj1 map_ext_in_iff He mt Hin).
  - exact (proj1 map_ext_in_iff Hc mt Hin).
Qed.

(** X11: when no width is NaN and the first one is not -0.0, the month
    columns tile the axis from 0 on: the first [x_start] is 0, every later
    [x_start] is the [x_end] of the month before, each [x_end] is [x_start]
    plus the width, and each [x_center] is the midpoint. *)
Theorem columns_tile_from_zero (df_range : list row) (mt : month_total)
    (rest : list month_total) :
  month_totals df_range = mt :: rest ->
  Forall (fun m => is_nan (width_prop m) = false) (month_totals df_range) ->
  width_prop mt <> neg_zero ->
  x_start mt = 0%float
  /\ map x_start (month_totals df_range)
     = 0%float :: removelast (map x_end (month_totals df_range))
  /\ Forall (fun m => x_end m = (x_start m + width_prop m)%float
                      /\ x_center m = ((x_start m + x_end m) / 2)%float)
            (month_totals df_range).
Proof.
  intros Hmt Hall Hfirst. split; [|split].
  - apply (first_x_start_zero df_range). now rewrite Hmt.
  - exact (x_positions_chain df_range mt rest Hmt Hall Hfirst).
  - apply Forall_forall. intros m Hm. exact (month_totals_rowwise df_range m Hm).
Qed.

Lemma columns_tile_from_zero_witness :
  let months := month_totals (page_filter (filtered scenario_B) 0 1000) in
  map x_start months = 0%float :: removelast (map x_end months)
  /\ map x_end months = [0x1.999999999999ap-1%float; 1%float].
Proof.
  cbn zeta. split; [|reflexivity].
  refine (proj1 (proj2 (columns_tile_from_zero
            (page_filter (filtered scenario_B) 0 1000)
            (hd {| mt_Month_Read := EmptyString; month_pages := 0;
                   first_date := {| year := 0; month := 0; day := 0 |};
                   width_prop := 0; x_start := 0; x_end := 0; x_center := 0 |}
                (month_totals (page_filter (filtered scenario_B) 0 1000)))
            (tl (month_totals (page_filter (filtered scenario_B) 0 1000)))
            eq_refl _ _))).
  - repeat constructor.
  - intros H. apply (f_equal Prim2SF) in H. vm_compute in H. discriminate.
Defined.

(** X12: when the page counts in range are not negative and their sum
    fits int64, the grand total is their exact sum, the monthly totals add
    up to it, and every monthly total lies between 0 and the grand total. *)
Theorem month_pages_sum_exactly (df_range : list row) :
  pages_fit df_range ->
  grand_total_pages df_range = zsum (map Number_of_Pages df_range)
  /\ zsum (map month_pages (month_totals df_range)) = grand_total_pages df_range
  /\ Forall (fun mt => 0 <= month_pages mt <= grand_total_pages df_range)
            (month_totals df_range).
Proof.
  intros Hfit.
  destruct (month_pages_add_up df_range) as (_ & _ & Hg & Hsum).
  assert (H63 : 0 < 2 ^ 63) by (apply Z.pow_pos_nonneg; lia).
  assert (Hexact : grand_total_pages df_range = zsum (map Number_of_Pages df_range)).
  { rewrite Hg. apply int64_small. destruct Hfit as [Hpos Hlt].
    pose proof (zsum_filter_bounds (fun _ => true) df_range Hpos) as Hb.
    rewrite filter_true in Hb. lia. }
  split; [exact Hexact|]. split; [now apply Hsum|].
  apply Forall_forall. intros mt Hin.
  destruct (month_totals_row df_range mt Hin) as [_ Hp].
  destruct Hfit as [Hpos Hlt].
  pose proof (zsum_filter_bounds
                (fun r => String.eqb (Month_Read r) (mt_Month_Read mt)) df_range Hpos)
    as Hb.
  fold (month_rows df_range (mt_Month_Read mt)) in Hb.
  rewrite Hp, Hexact, int64_small; lia.
Qed.

Lemma month_pages_sum_exactly_witness :
  let df_range := page_filter (filtered scenario_B) 0 1000 in
  pages_fit df_range
  /\ grand_total_pages df_range = 500
  /\ zsum (map month_pages (month_totals df_range)) = 500.
Proof.
  cbn zeta.
  assert (H : pages_fit (page_filter (filtered scenario_B) 0 1000)).
  { split; [|reflexivity].
    intros r [<- | [<- | []]]; cbn; lia. }
  destruct (month_pages_sum_exactly _ H) as (H1 & H2 & _).
  split; [exact H|]. split; [exact H1 | exact H2].
Defined.

(** X13: a range that is not empty but whose books have no page at all
    passes the emptiness guard and divides by a grand total of 0: every
    width, every [x_end] and every [x_center] is NaN, while the first
    [x_start] is still 0. *)
Theorem zero_total_columns_are_nan (df_range : list row) :
  df_range <> [] ->
  (forall r, In r df_range -> 0 <= Number_of_Pages r) ->
  zsum (map Number_of_Pages df_range) = 0 ->
  grand_total_pages df_range = 0
  /\ month_totals df_range <> []
  /\ Forall (fun mt => width_prop mt = nan /\ x_end mt = nan /\ x_center mt = nan)
            (month_totals df_range).
Proof.
  intros Hne Hpos Hz.
  destruct (zero_total_widths_nan df_range Hne Hpos Hz) as [Hmt Hw].
  pose proof (zero_total_x_end_nan df_range Hpos Hz Hne) as He.
  split; [|split; [exact Hmt|]].
  - rewrite grand_total_pages_sum, Hz. reflexivity.
  - rewrite Forall_forall in Hw, He |- *. intros mt Hin.
    destruct (month_totals_rowwise df_range mt Hin) as [_ Hc].
    rewrite (He mt Hin), add_nan_r in Hc. auto.
Qed.

Lemma zero_total_columns_are_nan_witness :
  let df_range := page_filter (filtered zero_pages) 0 0 in
  df_range <> []
  /\ grand_total_pages df_range = 0
  /\ Forall (fun mt => width_prop mt = nan /\ x_end mt = nan /\ x_center mt = nan)
            (month_totals df_range).
Proof.
  cbn zeta.
  assert (Hne : page_filter (filtered zero_pages) 0 0 <> []) by discriminate.
  assert (Hpos : forall r, In r (page_filter (filtered zero_pages) 0 0) ->
                           0 <= Number_of_Pages r).
  { intros r [<- | []]. cbn. lia. }
  destruct (zero_total_columns_are_nan _ Hne Hpos eq_refl) as (Hg & _ & Hall).
  split; [exact Hne|]. split; [exact Hg | exact Hall].
Defined.

(** ** Segments *)

Lemma segment_rows_key_filter (df_range : list row) (k : string * string) :
  filter (fun r => key_eqb pair_compare (segment_key r) k) df_range
  = segment_rows df_range (fst k) (snd k).
Proof.
  unfold segment_rows. apply filter_ext. intros r. destruct k as [m l]. cbn [fst snd].
  destruct (String.eqb_spec (Month_Read r) m) as [Em | Em];
    destruct (String.eqb_spec (Rating_Label r) l) as [El | El]; cbn.
  - apply (key_eqb_true pair_compare). unfold segment_key. congruence.
  - apply (key_eqb_false pair_compare). unfold segment_key. congruence.
  - apply (key_eqb_false pair_compare). unfold segment_key. congruence.
  - apply (key_eqb_false pair_compare). unfold segment_key. congruence.
Qed.

Lemma agg_row_group (df_range : list row) (a : agg_row) :
  In a (agg df_range) ->
  let books := segment_rows df_range (a_Month_Read a) (a_Rating_Label a) in
  books <> []
  /\ pages a = sum_int64 (map Number_of_Pages books)
  /\ Books a = summarize_books books.
Proof.
  unfold agg. intros Ha. apply in_flat_map in Ha.
  destruct Ha as ([[key p] books] & Hs & Ha).
  apply in_map_iff in Ha. destruct Ha as (mt & <- & _).
  cbn [a_Month_Read a_Rating_Label pages Books].
  apply in_flat_map in Hs. destruct Hs as (pg & Hpg & Hs).
  apply in_map_iff in Hs. destruct Hs as (b & Hb & Hbin).
  apply filter_In in Hbin. destruct Hbin as [Hbin Hkey].
  apply (key_eqb_true pair_compare) in Hkey.
  apply in_map_iff in Hpg. destruct Hpg as (g & <- & Hg).
  apply in_map_iff in Hbin. destruct Hbin as (g' & <- & Hg').
  cbn [fst snd] in Hb, Hkey. injection Hb as <- <- <-.
  pose proof (groupby_nonempty pair_compare _ _ _ Hg) as Hne.
  unfold groupby in Hg, Hg'.
  apply in_map_iff in Hg. destruct Hg as (k & <- & Hk).
  apply in_map_iff in Hg'. destruct Hg' as (k' & <- & Hk').
  cbn [fst snd] in *. subst k'.
  rewrite segment_rows_key_filter in *. destruct k as [m l]. cbn [fst snd] in *.
  repeat split; auto.
Qed.

(** X14: [agg] has exactly one row for every (month, rating label) pair
    that occurs in the range and no other row, in ascending order of the
    pair (month first, then label). *)
Theorem agg_one_row_per_segment (df_range : list row) :
  let keys := map (fun a => (a_Month_Read a, a_Rating_Label a)) (agg df_range) in
  keys = group_keys pair_compare (map segment_key df_range)
  /\ NoDup keys
  /\ StronglySorted (key_lt pair_compare) keys
  /\ (forall k, In k keys <-> In k (map segment_key df_range)).
Proof.
  cbn zeta.
  assert (Hkeys : map (fun a => (a_Month_Read a, a_Rating_Label a)) (agg df_range)
                  = group_keys pair_compare (map segment_key df_range)).
  { rewrite <- (groupby_keys pair_compare segment_key).
    replace (map (fun a => (a_Month_Read a, a_Rating_Label a)) (agg df_range))
      with (map fst (map (fun a => (a_Month_Read a, a_Rating_Label a, pages a))
                         (agg df_range)))
      by (rewrite map_map; reflexivity).
    rewrite agg_segments, map_map. apply map_ext. intros [[m l] rows]. reflexivity. }
  rewrite Hkeys. split; [reflexivity|]. split; [|split].
  - apply (group_keys_NoDup pair_compare).
  - apply (group_keys_sorted pair_compare).
  - intros k. apply (group_keys_In pair_compare).
Qed.

(** X15: a row of [agg] stands for a segment that has books in the range:
    its page count is the int64 sum of their pages, its tooltip text lists
    exactly these books in frame order, its month total is that of its
    month, and its height is the quotient of the two. *)
Theorem segment_describes_its_books (df_range : list row) (a : agg_row) :
  In a (agg df_range) ->
  let books := segment_rows df_range (a_Month_Read a) (a_Rating_Label a) in
  books <> []
  /\ pages a = sum_int64 (map Number_of_Pages books)
  /\ Books a = String.concat "<br>" (map book_line books)
  /\ a_month_pages a
     = sum_int64 (map Number_of_Pages (month_rows df_range (a_Month_Read a)))
  /\ height a = (Py.float_of_Z (pages a) / Py.float_of_Z (a_month_pages a))%float.
Proof.
  intros Ha. cbn zeta.
  destruct (agg_row_group df_range a Ha) as (Hne & Hp & Hb).
  destruct (agg_row_month df_range a Ha) as (mt & Hin & Hm & Hmp & _ & _ & Hh).
  destruct (month_totals_row df_range mt Hin) as [_ Htot].
  repeat split; auto.
  - rewrite Hmp, Htot, Hm. symmetry. apply sum_int64_zsum.
  - now rewrite Hmp.
Qed.

Lemma segment_describes_its_books_witness :
  let df_range := page_filter (filtered scenario_A) 0 1000 in
  exists a, In a (agg df_range)
            /\ pages a = 300
            /\ Books a = "Dune (Herbert)"
            /\ a_month_pages a = 400
            /\ height a = 0.75%float.
Proof.
  cbn zeta.
  exists (nth 1 (agg (page_filter (filtered scenario_A) 0 1000))
              {| a_Month_Read := EmptyString; a_Rating_Label := EmptyString;
                 pages := 0; Books := EmptyString; a_month_pages := 0;
                 a_x_center := 0; a_width_prop := 0; height := 0 |}).
  match goal with |- In ?a ?l /\ _ => assert (H : In a l) by (right; now left) end.
  split; [exact H|].
  destruct (segment_describes_its_books _ _ H) as (_ & Hp & Hb & Hm & Hh).
  split; [exact Hp|]. split; [exact Hb|]. split; [exact Hm | exact Hh].
Defined.

(** X16: the segments of one month share that month's columns: every row
    of [agg] carries the page total, the width and the center of the
    [month_totals] row of its month, so two segments of the same month have
    the same width and the same x position. *)
Theorem segments_share_month_columns (df_range : list row) :
  Forall (fun a => exists mt, In mt (month_totals df_range)
                              /\ mt_Month_Read mt = a_Month_Read a
                              /\ a_month_pages a = month_pages mt
                              /\ a_width_prop a = width_prop mt
                              /\ a_x_center a = x_center mt)
         (agg df_range)
  /\ (forall a b, In a (agg df_range) -> In b (agg df_range) ->
                  a_Month_Read a = a_Month_Read b ->
                  a_month_pages a = a_month_pages b
                  /\ a_width_prop a = a_width_prop b
                  /\ a_x_center a = a_x_center b).
Proof.
  split.
  - apply Forall_forall. intros a Ha.
    destruct (agg_row_month df_range a Ha) as (mt & Hin & Hm & Hmp & Hw & Hc & _).
    exists mt. auto.
  - intros a b Ha Hb Hab.
    destruct (agg_row_month df_range a Ha) as (ma & Hina & Hma & Hpa & Hwa & Hca & _).
    destruct (agg_row_month df_range b Hb) as (mb & Hinb & Hmb & Hpb & Hwb & Hcb & _).
    assert (ma = mb).
    { apply (NoDup_key_inj mt_Month_Read (month_totals df_range)); auto.
      - apply month_totals_NoDup.
      - congruence. }
    subst mb. repeat split; congruence.
Qed.

Lemma segment_rows_of_month_rows (df_range : list row) (m l : string) :
  segment_rows df_range m l
  = filter (fun r => String.eqb (Rating_Label r) l) (month_rows df_range m).
Proof.
  unfold segment_rows, month_rows.
  induction df_range as [|r rest IH]; [reflexivity|]. cbn [filter].
  destruct (String.eqb (Month_Read r) m); cbn [andb filter];
    [destruct (String.eqb (Rating_Label r) l)|]; now rewrite IH.
Qed.

(** X17: when the page counts in range are not negative and their sum
    fits int64, the page counts of a month's segments add up exactly to the
    page count of the month's books, and every segment's page count lies
    between 0 and its month's total. *)
Theorem segment_pages_sum_exactly (df_range : list row) :
  pages_fit df_range ->
  (forall m, zsum (map pages (month_segments df_range m))
             = zsum (map Number_of_Pages (month_rows df_range m)))
  /\ Forall (fun a => 0 <= pages a <= a_month_pages a) (agg df_range).
Proof.
  intros Hfit. split.
  - intros m. now apply month_segments_pages_exact.
  - apply Forall_forall. intros a Ha.
    destruct (agg_row_group df_range a Ha) as (_ & Hp & _).
    destruct (agg_row_month df_range a Ha) as (mt & Hin & Hm & Hmp & _).
    destruct (month_totals_row df_range mt Hin) as [_ Htot].
    rewrite Hm in Htot.
    assert (Hfit_m : pages_fit (month_rows df_range (a_Month_Read a)))
      by (now apply pages_fit_filter).
    rewrite Hmp, Htot, Hp, segment_rows_of_month_rows.
    rewrite (sum_int64_filter_exact _ _ Hfit_m).
    destruct Hfit_m as [Hpos Hlt].
    pose proof (zsum_filter_bounds
                  (fun r => String.eqb (Rating_Label r) (a_Rating_Label a)) _ Hpos).
    assert (0 < 2 ^ 63) by (apply Z.pow_pos_nonneg; lia).
    rewrite int64_small; lia.
Qed.

Lemma segment_pages_sum_exactly_witness :
  let df_range := page_filter (filtered scenario_A) 0 1000 in
  pages_fit df_range
  /\ zsum (map pages (month_segments df_range "2025-01")) = 400.
Proof.
  cbn zeta.
  assert (H : pages_fit (page_filter (filtered scenario_A) 0 1000)).
  { split; [|reflexivity].
    intros r [<- | [<- | []]]; cbn; lia. }
  split; [exact H|].
  rewrite (proj1 (segment_pages_sum_exactly _ H) "2025-01"). reflexivity.
Defined.

Lemma sum_float_all_nan (xs : list float) (acc : float) :
  Forall (fun h => h = nan) xs ->
  fold_left (fun acc x => (acc + x)%float) xs nan = nan
  /\ (xs <> [] -> fold_left (fun acc x => (acc + x)%float) xs acc = nan).
Proof.
  intros Hall. revert acc.
  induction Hall as [|x xs -> _ IH]; intros acc; cbn [fold_left].
  - split; [reflexivity | congruence].
  - rewrite !add_nan_r. split; [apply (IH acc) | intros _; apply (IH acc)].
Qed.

(** X18: whenever the books of a month in range have no page at all (and
    no page count is negative), the month is still charted, every segment
    of that month gets the height 0/0 = NaN, and the heights of the month
    sum to NaN, which is not within 1e-9 of 1. *)
Theorem zero_page_month_never_stacks_to_one (df_range : list row) (m : string) :
  (forall r, In r df_range -> 0 <= Number_of_Pages r) ->
  In m (map Month_Read df_range) ->
  zsum (map Number_of_Pages (month_rows df_range m)) = 0 ->
  month_heights df_range m <> []
  /\ Forall (fun h => h = nan) (month_heights df_range m)
  /\ sum_float (month_heights df_range m) = nan
  /\ close_to_one (sum_float (month_heights df_range m)) = false.
Proof.
  intros Hpos Hm Hz.
  destruct (zero_month_heights_nan df_range m Hpos Hm Hz) as [Hne Hall].
  assert (Hsum : sum_float (month_heights df_range m) = nan).
  { unfold sum_float. now apply (sum_float_all_nan _ 0%float Hall). }
  split; [exact Hne|]. split; [exact Hall|]. split; [exact Hsum|].
  rewrite Hsum. reflexivity.
Qed.

Lemma zero_page_month_never_stacks_to_one_witness :
  let df_range := page_filter (filtered zero_pages) 0 300 in
  In "2025-01" (map Month_Read df_range)
  /\ month_heights df_range "2025-01" <> []
  /\ close_to_one (sum_float (month_heights df_range "2025-01")) = false.
Proof.
  cbn zeta.
  assert (Hpos : forall r, In r (page_filter (filtered zero_pages) 0 300) ->
                           0 <= Number_of_Pages r).
  { intros r [<- | [<- | []]]; cbn; lia. }
  assert (Hm : In "2025-01" (map Month_Read (page_filter (filtered zero_pages) 0 300)))
    by (right; now left).
  destruct (zero_page_month_never_stacks_to_one _ "2025-01" Hpos Hm eq_refl)
    as (Hne & _ & _ & Hfar).
  split; [exact Hm|]. split; [exact Hne | exact Hfar].
Defined.

(** ** The chart *)

Lemma trace_for_customdata (rows : list agg_row) (label : string) :
  bar_customdata (trace_for rows label)
  = map hover_of (filter (fun a => String.eqb (a_Rating_Label a) label) rows).
Proof.
  unfold trace_for.
  destruct (filter (fun a => String.eqb (a_Rating_Label a) label) rows); reflexivity.
Qed.

Lemma trace_for_shape (rows : list agg_row) (label : string) :
  bar_name (trace_for rows label) = label
  /\ bar_marker_color (trace_for rows label) = color_of label
  /\ List.length (bar_x (trace_for rows label))
     = List.length (bar_width (trace_for rows label))
  /\ List.length (bar_y (trace_for rows label))
     = List.length (bar_width (trace_for rows label))
  /\ (bar_hoverinfo_skip (trace_for rows label) = true
      <-> forall a, In a rows -> a_Rating_Label a <> label).
Proof.
  unfold trace_for.
  destruct (filter (fun a => String.eqb (a_Rating_Label a) label) rows)
    as [|a sub] eqn:E; cbn [bar_name bar_marker_color bar_x bar_y bar_width
                              bar_hoverinfo_skip].
  - repeat split; auto. intros _ a Ha Hl.
    assert (Hmem : In a (filter (fun a => String.eqb (a_Rating_Label a) label) rows)).
    { apply filter_In. split; [exact Ha | now apply String.eqb_eq]. }
    rewrite E in Hmem. exact Hmem.
  - rewrite !length_map. repeat split; auto; try discriminate.
    intros H. exfalso.
    assert (Hmem : In a (filter (fun a => String.eqb (a_Rating_Label a) label) rows))
      by (rewrite E; now left).
    apply filter_In in Hmem. destruct Hmem as [Ha Hl]. apply String.eqb_eq in Hl.
    exact (H a Ha Hl).
Qed.


Lemma legend_segment_is_drawn (df_range : list row) (a : agg_row) :
  In a (agg df_range) ->
  In (a_Rating_Label a) legend_labels ->
  In (hover_of a)
     (List.concat (map bar_customdata (data (marimekko_figure df_range)))).
Proof.
  intros Ha Hl. unfold marimekko_figure. cbn [data]. rewrite map_map, in_concat.
  exists (bar_customdata (trace_for (agg df_range) (a_Rating_Label a))). split.
  - apply (in_map (fun l => bar_customdata (trace_for (agg df_range) l))). exact Hl.
  - rewrite trace_for_customdata. apply in_map. apply filter_In.
    split; [exact Ha | apply String.eqb_refl].
Qed.

(** X20: the points drawn in the chart are exactly the segments of [agg]
    whose rating label is one of the six legend labels, each carrying the
    customdata of its segment; a segment with any other label (a half-star
    rating, say) is aggregated but never drawn. *)
Theorem drawn_points_are_legend_segments (df_range : list row) (h : hover_row) :
  In h (List.concat (map bar_customdata (data (marimekko_figure df_range))))
  <-> exists a, In a (agg df_range)
                /\ In (a_Rating_Label a) legend_labels
                /\ h = hover_of a.
Proof.
  split.
  - unfold marimekko_figure. cbn [data]. rewrite map_map, in_concat.
    intros (cds & Hcds & Hh). apply in_map_iff in Hcds.
    destruct Hcds as (label & <- & Hlabel).
    rewrite trace_for_customdata in Hh. apply in_map_iff in Hh.
    destruct Hh as (a & <- & Ha). apply filter_In in Ha. destruct Ha as [Ha Hl].
    apply String.eqb_eq in Hl. exists a. rewrite Hl. auto.
  - intros (a & Ha & Hl & ->). now apply legend_segment_is_drawn.
Qed.

Lemma to_records_pages (dff : list row) :
  map t_Number_of_Pages (to_records dff) = map Number_of_Pages dff.
Proof.
  unfold to_records. rewrite map_map. reflexivity.
Qed.

(** X21: with nothing selected, a click on any point the chart draws for a
    range shows the books of that segment: the store takes the point's
    (month, rating), the table is not empty, every row is of the clicked
    month, and the pages of the rows sum (in int64) to the page count shown
    in the point's tooltip. *)
Theorem click_on_drawn_point_shows_its_books (frame : list row) (low high : Z)
    (tr : bar) (h : hover_row) :
  In tr (data (update_marimekko frame (low, high))) ->
  In h (bar_customdata tr) ->
  let out := update_table frame (Some (click_on h)) (low, high) None in
  cd_Rating_Label h = bar_name tr
  /\ snd out = Some {| sel_month := cd_Month_Read h; sel_rating := cd_Rating_Label h |}
  /\ fst out <> []
  /\ (forall t, In t (fst out) -> t_Month_Read t = cd_Month_Read h)
  /\ sum_int64 (map t_Number_of_Pages (fst out)) = cd_pages h.
Proof.
  intros Htr Hh. cbn zeta.
  unfold update_marimekko, update_marimekko_with in Htr.
  destruct (page_filter frame low high) as [|r0 rest] eqn:Hrange; [destruct Htr|].
  rewrite <- Hrange in Htr. unfold marimekko_figure in Htr. cbn [data] in Htr.
  apply in_map_iff in Htr. destruct Htr as (label & <- & _).
  rewrite trace_for_customdata in Hh. apply in_map_iff in Hh.
  destruct Hh as (a & <- & Ha). apply filter_In in Ha. destruct Ha as [Ha Hl].
  apply String.eqb_eq in Hl.
  destruct (agg_row_group _ a Ha) as (Hne & Hp & _).
  unfold click_on. rewrite update_table_click. cbn [stored_eqb fst snd].
  unfold selection_of. cbn [customdata hover_of cd_Month_Read cd_Rating_Label
                             cd_pages sel_month sel_rating].
  destruct (trace_for_shape (agg (page_filter frame low high)) label) as (Hn & _).
  rewrite Hn. split; [exact Hl|]. split; [reflexivity|]. split; [|split].
  - intros Hnil. apply map_eq_nil in Hnil. exact (Hne Hnil).
  - intros t Ht. apply to_records_In in Ht. destruct Ht as (r & Hr & Hm & _).
    unfold segment_rows in Hr. apply filter_In in Hr. destruct Hr as [_ Hsel].
    apply andb_true_iff in Hsel. destruct Hsel as [Hmonth _].
    apply String.eqb_eq in Hmonth. congruence.
  - now rewrite to_records_pages, Hp.
Qed.

Lemma click_on_drawn_point_shows_its_books_witness :
  let tr := nth 5 (data (update_marimekko (filtered scenario_A) (0, 1000)))
                {| bar_x := []; bar_y := []; bar_width := [];
                   bar_name := EmptyString; bar_marker_color := EmptyString;
                   bar_hoverinfo_skip := true; bar_customdata := [] |} in
  let h := {| cd_Month_Read := "2025-01"; cd_pages := 300; cd_month_pages := 400;
              cd_Books := "Dune (Herbert)"; cd_Rating_Label := "5⭐" |} in
  In tr (data (update_marimekko (filtered scenario_A) (0, 1000)))
  /\ In h (bar_customdata tr)
  /\ map t_Title (fst (update_table (filtered scenario_A) (Some (click_on h))
                         (0, 1000) None)) = ["Dune"]
  /\ sum_int64 (map t_Number_of_Pages
                  (fst (update_table (filtered scenario_A) (Some (click_on h))
                          (0, 1000) None))) = 300.
Proof.
  cbn zeta.
  match goal with |- In ?tr ?l /\ In ?h ?c /\ _ =>
    assert (Htr : In tr l) by (do 5 right; now left);
    assert (Hh : In h c) by (now left)
  end.
  split; [exact Htr|]. split; [exact Hh|]. split; [reflexivity|].
  exact (proj2 (proj2 (proj2 (proj2
           (click_on_drawn_point_shows_its_books _ _ _ _ _ Htr Hh))))).
Defined.

Lemma star_rated_label (b : book) (r : row) :
  filtered_row b = Some r -> star_rated b -> In (Rating_Label r) legend_labels.
Proof.
  intros Hrow Hstar. unfold filtered_row in Hrow.
  destruct (raw_Date_Added b) as [d|]; [|discriminate].
  destruct (mask_2025 b && mask_shelf b); [|discriminate].
  injection Hrow as <-. cbn [Rating_Label].
  destruct Hstar as [Hnan | (n & Hn & Hrating)].
  - rewrite (zero_to_nan_unrated (raw_My_Rating b)).
    + now left.
    + unfold unrated. rewrite Hnan. apply orb_true_r.
  - rewrite Hrating.
    assert (Hcases : n = 0 \/ n = 1 \/ n = 2 \/ n = 3 \/ n = 4 \/ n = 5) by lia.
    destruct Hcases as [-> | [-> | [-> | [-> | [-> | ->]]]]]; vm_compute; auto 10.
Qed.

(** X22: when every book of the export is unrated or rated a whole number
    of stars from 0 to 5, every row of the frame has one of the six legend
    labels, so every segment aggregated for any page range is drawn in the
    chart. *)
Theorem star_rated_books_are_all_drawn (df : list book) (low high : Z) :
  (forall b, In b df -> star_rated b) ->
  (forall r, In r (filtered df) -> In (Rating_Label r) legend_labels)
  /\ (forall a, In a (agg (page_filter (filtered df) low high)) ->
        In (hover_of a)
           (List.concat (map bar_customdata
              (data (marimekko_figure (page_filter (filtered df) low high)))))).
Proof.
  intros Hstars.
  assert (Hlabels : forall r, In r (filtered df) -> In (Rating_Label r) legend_labels).
  { intros r Hr. apply filtered_In in Hr. destruct Hr as (b & Hb & Hrow).
    exact (star_rated_label b r Hrow (Hstars b Hb)). }
  split; [exact Hlabels|].
  intros a Ha. apply legend_segment_is_drawn; [exact Ha|].
  destruct (agg_row_group _ a Ha) as (Hne & _).
  destruct (segment_rows (page_filter (filtered df) low high)
              (a_Month_Read a) (a_Rating_Label a)) as [|r rest] eqn:E; [congruence|].
  assert (Hr : In r (segment_rows (page_filter (filtered df) low high)
                       (a_Month_Read a) (a_Rating_Label a))) by (rewrite E; now left).
  unfold segment_rows in Hr. apply filter_In in Hr. destruct Hr as [Hin Hsel].
  apply andb_true_iff in Hsel. destruct Hsel as [_ Hl]. apply String.eqb_eq in Hl.
  apply page_filter_In in Hin. destruct Hin as [Hin _].
  rewrite <- Hl. now apply Hlabels.
Qed.

Lemma star_rated_books_are_all_drawn_witness :
  (forall b, In b scenario_B -> star_rated b)
  /\ map Rating_Label (filtered scenario_B) = ["5⭐"; "Unrated"]
  /\ forall r, In r (filtered scenario_B) -> In (Rating_Label r) legend_labels.
Proof.
  assert (H : forall b, In b scenario_B -> star_rated b).
  { intros b [<- | [<- | []]]; right; [exists 5 | exists 0];
      (split; [lia | reflexivity]). }
  split; [exact H|]. split; [reflexivity|].
  exact (proj1 (star_rated_books_are_all_drawn scenario_B 0 1000 H)).
Defined.

(** ** Months on the axis *)

Lemma period_M_compare (m1 m2 d1 d2 : Z) :
  1 <= m1 <= 12 -> 1 <= m2 <= 12 ->
  String.compare (period_M {| year := 2025; month := m1; day := d1 |})
                 (period_M {| year := 2025; month := m2; day := d2 |})
  = (m1 ?= m2).
Proof.
  intros H1 H2. unfold period_M. cbn [year month].
  assert (C1 : m1 = 1 \/ m1 = 2 \/ m1 = 3 \/ m1 = 4 \/ m1 = 5 \/ m1 = 6 \/ m1 = 7
               \/ m1 = 8 \/ m1 = 9 \/ m1 = 10 \/ m1 = 11 \/ m1 = 12) by lia.
  assert (C2 : m2 = 1 \/ m2 = 2 \/ m2 = 3 \/ m2 = 4 \/ m2 = 5 \/ m2 = 6 \/ m2 = 7
               \/ m2 = 8 \/ m2 = 9 \/ m2 = 10 \/ m2 = 11 \/ m2 = 12) by lia.
  clear H1 H2.
  repeat (destruct C1 as [-> | C1]); try subst m1;
    repeat (destruct C2 as [-> | C2]); try subst m2; reflexivity.
Qed.

Lemma sort_values_sorted_id {R : Type} (leb : R -> R -> bool) (l : list R) :
  StronglySorted (fun a b => leb a b = true) l -> sort_values leb l = l.
Proof.
  induction 1 as [|x l Hs IH Hall]; [reflexivity|].
  cbn [sort_values fold_right]. fold (sort_values leb l). rewrite IH.
  destruct l as [|y l]; [reflexivity|]. cbn [insert_sorted].
  apply Forall_inv in Hall. now rewrite Hall.
Qed.

Lemma StronglySorted_map_in {A B : Type} (f : A -> B) (R : A -> A -> Prop)
    (R' : B -> B -> Prop) (l : list A) :
  (forall a b, In a l -> In b l -> R a b -> R' (f a) (f b)) ->
  StronglySorted R l -> StronglySorted R' (map f l).
Proof.
  intros Hf Hs. induction Hs as [|x l Hs IH Hall]; cbn; [constructor|].
  constructor.
  - apply IH. intros a b Ha Hb. apply Hf; now right.
  - rewrite Forall_forall in Hall |- *. intros y Hy. apply in_map_iff in Hy.
    destruct Hy as (z & <- & Hz). apply Hf; [now left | now right | auto].
Qed.

Lemma well_dated_first_date (frame : list row) (k : string) :
  well_dated frame ->
  In k (group_keys String.compare (map Month_Read frame)) ->
  let d := group_first_date
             (k, filter (fun r => key_eqb String.compare (Month_Read r) k) frame) in
  year d = 2025 /\ 1 <= month d <= 12 /\ period_M d = k.
Proof.
  intros Hwd Hk. cbn zeta. unfold group_first_date. cbn [snd].
  rewrite month_rows_key_filter.
  apply (proj1 (group_keys_In String.compare _ _)) in Hk. apply in_map_iff in Hk.
  destruct Hk as (r0 & Hr0 & Hin0).
  destruct (min_date (map Date_Added (month_rows frame k))) as [d|] eqn:Hmin.
  - destruct (min_date_spec _ _ Hmin) as [Hmem _].
    apply in_map_iff in Hmem. destruct Hmem as (r & <- & Hr).
    unfold month_rows in Hr. apply filter_In in Hr. destruct Hr as [Hin Hm].
    apply String.eqb_eq in Hm. destruct (Hwd r Hin) as (Hy & Hmo & Hkey).
    repeat split; try lia; congruence.
  - exfalso.
    assert (Hmem : In r0 (month_rows frame k)).
    { apply filter_In. split; [exact Hin0 | now apply String.eqb_eq]. }
    destruct (month_rows frame k); [destruct Hmem | discriminate].
Qed.

(** X23: on a frame of 2025 dates the month keys "2025-01" ... "2025-12"
    sort like the calendar, so sorting by first date leaves the months in
    ascending key order: the axis shows each month once, from the earliest
    key to the latest. *)
Theorem months_appear_in_calendar_order (frame : list row) :
  well_dated frame ->
  map mt_Month_Read (month_totals frame)
  = group_keys String.compare (map Month_Read frame)
  /\ StronglySorted (key_lt String.compare) (map mt_Month_Read (month_totals frame))
  /\ ticktext (xaxis (marimekko_figure frame))
     = group_keys String.compare (map Month_Read frame).
Proof.
  intros Hwd.
  assert (Hkeys : map mt_Month_Read (month_totals frame)
                  = group_keys String.compare (map Month_Read frame)).
  { destruct (month_totals_columns frame) as [Hcols _].
    replace (map mt_Month_Read (month_totals frame))
      with (map (fun t : string * Z * date => fst (fst t)) (month_table frame))
      by (rewrite <- Hcols, map_map; reflexivity).
    rewrite month_table_groups, sort_values_sorted_id.
    - rewrite map_map. cbn [month_row fst]. apply (groupby_keys String.compare).
    - unfold groupby. rewrite map_map.
      apply (StronglySorted_map_in _ (key_lt String.compare));
        [|apply (group_keys_sorted String.compare)].
      intros k1 k2 Hk1 Hk2 Hlt. unfold month_row. cbn [snd fst].
      pose proof (well_dated_first_date frame k1 Hwd Hk1) as H1.
      pose proof (well_dated_first_date frame k2 Hwd Hk2) as H2.
      cbn zeta in H1, H2.
      match goal with
      | |- date_leb ?a ?b = true =>
          remember a as d1 eqn:E1; remember b as d2 eqn:E2
      end.
      clear E1 E2.
      destruct H1 as (Hy1 & Hm1 & Hp1). destruct H2 as (Hy2 & Hm2 & Hp2).
      unfold key_lt in Hlt. rewrite <- Hp1, <- Hp2 in Hlt.
      destruct d1 as [y1 m1 dd1], d2 as [y2 m2 dd2]. cbn [year month] in *. subst y1 y2.
      rewrite period_M_compare in Hlt by assumption.
      rewrite Z.compare_lt_iff in Hlt. apply date_leb_iff. cbn [year month day]. lia. }
  split; [exact Hkeys|]. split.
  - rewrite Hkeys. apply (group_keys_sorted String.compare).
  - exact Hkeys.
Qed.

Lemma months_appear_in_calendar_order_witness :
  well_dated (filtered scenario_B)
  /\ map mt_Month_Read (month_totals (filtered scenario_B)) = ["2025-01"; "2025-02"].
Proof.
  assert (H : well_dated (filtered scenario_B)).
  { intros r [<- | [<- | []]]; cbn; repeat split; lia. }
  split; [exact H|].
  rewrite (proj1 (months_appear_in_calendar_order _ H)). reflexivity.
Defined.
